(** * PC-BASIC value engine: values.py

    A shallow embedding of [pcbasic/basic/values.py]: the [Values] facade
    (type promotion, negation, bitwise operators, comparisons, CVI/CVS/CVD,
    INSTR) and the number formatters ([float_to_str], [format_number] and
    their helpers).

    Python 2 [str] and [bytearray] are byte strings: they are [string] here,
    one [ascii] per byte.  Python [int] is [Z].  A raised exception is the
    [Raise] branch of [result]. *)

From Stdlib Require Import ZArith List Bool Lia String Ascii.
From Stdlib Require Import DecimalString DecimalPos.
Import ListNotations.

Open Scope string_scope.
Open Scope Z_scope.

(** ** Exceptions *)

(** The error numbers of [error.py] that values.py raises. *)
Inductive error_code : Type := STX | IFC | OVERFLOW | TYPE_MISMATCH.

Inductive exn : Type :=
| RunError (err : error_code)
| KeyError
| IndexError
| AttributeError.

Inductive result (A : Type) : Type :=
| Ok (a : A)
| Raise (e : exn).

Arguments Ok {A} a.
Arguments Raise {A} e.

Definition bind {A B : Type} (r : result A) (k : A -> result B) : result B :=
  match r with
  | Ok a => k a
  | Raise e => Raise e
  end.

Notation "x <- c1 ;; c2" := (bind c1 (fun x => c2))
  (at level 61, c1 at next level, right associativity).

Notation "' pat <- c1 ;; c2" := (bind c1 (fun pat => c2))
  (at level 61, pat pattern, c1 at next level, right associativity).

Definition is_run_error {A : Type} (r : result A) : bool :=
  match r with
  | Raise (RunError _) => true
  | _ => false
  end.

(** Modelled from the spec: error.throw_if, which values.py imports and
    error.py defines; it raises a runtime error when its argument holds. *)
Definition throw_if (b : bool) : result unit :=
  if b then Raise (RunError IFC) else Ok tt.

(** ** Python byte strings *)

Module Py.

Definition len (s : string) : Z := Z.of_nat (String.length s).

Fixpoint take (n : nat) (s : string) : string :=
  match n, s with
  | S n', String c s' => String c (take n' s')
  | _, _ => EmptyString
  end.

Fixpoint drop (n : nat) (s : string) : string :=
  match n, s with
  | S n', String _ s' => drop n' s'
  | _, _ => s
  end.

(** A slice bound [k] as Python clamps it: negative bounds count from
    the end. *)
Definition bound (s : string) (k : Z) : nat :=
  if k <? 0 then Z.to_nat (Z.max 0 (len s + k)) else Z.to_nat k.

(** [s[:k]] *)
Definition slice_to (s : string) (k : Z) : string := take (bound s k) s.

(** [s[k:]] *)
Definition slice_from (s : string) (k : Z) : string := drop (bound s k) s.

(** [c * n] for a one-character string; empty when [n <= 0]. *)
Fixpoint replicate (n : nat) (c : ascii) : string :=
  match n with
  | O => EmptyString
  | S n' => String c (replicate n' c)
  end.

Definition mul (c : ascii) (n : Z) : string := replicate (Z.to_nat n) c.

(** [c in s] for a one-character [c]. *)
Fixpoint contains (c : ascii) (s : string) : bool :=
  match s with
  | EmptyString => false
  | String d s' => Ascii.eqb c d || contains c s'
  end.

(** [s.rstrip(c)] *)
Fixpoint rstrip (c : ascii) (s : string) : string :=
  match s with
  | EmptyString => EmptyString
  | String d s' =>
      match rstrip c s' with
      | EmptyString => if Ascii.eqb d c then EmptyString else String d EmptyString
      | r => String d r
      end
  end.

(** [s[i]], with [IndexError] out of range and negative [i] counted from
    the end. *)
Definition index (s : string) (i : Z) : result ascii :=
  let j := if i <? 0 then len s + i else i in
  if (j <? 0) || (len s <=? j) then Raise IndexError
  else match String.get (Z.to_nat j) s with
       | Some c => Ok c
       | None => Raise IndexError
       end.

(** [s.find(sub)]: the lowest index where [sub] starts, or -1. *)
Fixpoint find_from (sub s : string) (pos : Z) : Z :=
  if String.prefix sub s then pos
  else match s with
       | EmptyString => -1
       | String _ s' => find_from sub s' (pos + 1)
       end.

Definition find (s sub : string) : Z := find_from sub s 0.

(** [str(n)] for a non-negative [n]. *)
Definition str_nat (n : Z) : string :=
  NilEmpty.string_of_uint (N.to_uint (Z.to_N n)).

(** [ord(c)] *)
Definition ord (c : ascii) : Z := Z.of_N (N_of_ascii c).

(** [chr(n)] for [0 <= n < 256]. *)
Definition chr (n : Z) : ascii := ascii_of_N (Z.to_N n).

End Py.

(** ** Values *)

(** The two classes of [numbers.Float]. *)
Inductive float_class : Type := SingleClass | DoubleClass.

(** A [numbers.Float] object: its class and its byte buffer. *)
Record Float : Type := mkFloat { fclass : float_class; fbuf : string }.

(** A BASIC value: a [numbers.Integer] (2-byte buffer), a [numbers.Single]
    or [numbers.Double] (4- or 8-byte buffer), or a string, which is the
    tuple of ['$'] and a 3-byte descriptor into string space. *)
Inductive value : Type :=
| Integer (buf : string)
| Num (f : Float)
| Str (desc : string).

Definition Single (buf : string) : value := Num (mkFloat SingleClass buf).
Definition Double (buf : string) : value := Num (mkFloat DoubleClass buf).

Inductive typechar : Type := INT | SNG | DBL | STR.

Definition typechar_ascii (t : typechar) : ascii :=
  match t with
  | INT => "%" | SNG => "!" | DBL => "#" | STR => "$"
  end%char.

Definition class_sigil (c : float_class) : typechar :=
  match c with SingleClass => SNG | DoubleClass => DBL end.

(** [Values.sigil] *)
Definition sigil (num : value) : typechar :=
  match num with
  | Str _ => STR
  | Integer _ => INT
  | Num f => class_sigil (fclass f)
  end.

Definition is_numeric (v : value) : bool :=
  match v with Str _ => false | _ => true end.

(** [SIZE_TO_TYPE] *)
Definition SIZE_TO_TYPE (size : Z) : result typechar :=
  if size =? 2 then Ok INT
  else if size =? 3 then Ok STR
  else if size =? 4 then Ok SNG
  else if size =? 8 then Ok DBL
  else Raise KeyError.

(** [Values.from_bytes]: the size of the buffer selects the class, whose
    [from_bytes] keeps a copy of the bytes. *)
Definition from_bytes (token_bytes : string) : result value :=
  typechar <- SIZE_TO_TYPE (Py.len token_bytes) ;;
  match typechar with
  | STR => Ok (Str token_bytes)
  | INT => Ok (Integer token_bytes)
  | SNG => Ok (Single token_bytes)
  | DBL => Ok (Double token_bytes)
  end.

(** [Values.to_bytes] *)
Definition to_bytes (basic_val : value) : string :=
  match basic_val with
  | Str desc => desc
  | Integer buf => buf
  | Num f => fbuf f
  end.

(** [null]: a value of the given type with a zeroed buffer. *)
Definition null (t : typechar) : value :=
  match t with
  | STR => Str (Py.mul zero 3)
  | INT => Integer (Py.mul zero 2)
  | SNG => Single (Py.mul zero 4)
  | DBL => Double (Py.mul zero 8)
  end.

(** [pass_string] *)
Definition pass_string (inp : value) : result value :=
  match sigil inp with
  | STR => Ok inp
  | _ => Raise (RunError TYPE_MISMATCH)
  end.

(** [pass_number] *)
Definition pass_number (inp : value) : result value :=
  match sigil inp with
  | STR => Raise (RunError TYPE_MISMATCH)
  | _ => Ok inp
  end.

(** ** numbers.Integer, from the byte layout of the spec *)

Module IntegerOps.

(** Little-endian value of a byte buffer. *)
Fixpoint le_decode (buf : string) : Z :=
  match buf with
  | EmptyString => 0
  | String c rest => Py.ord c + 256 * le_decode rest
  end.

(** Little-endian bytes of the low [8 * n] bits of [v]. *)
Fixpoint le_encode (n : nat) (v : Z) : string :=
  match n with
  | O => EmptyString
  | S n' => String (Py.chr (v mod 256)) (le_encode n' (v / 256))
  end.

(** Modelled from the spec: numbers.Integer.to_int, the two's-complement
    value of the 2-byte little-endian buffer, or with [unsigned] the
    stored bits read as 0...65535. *)
Definition to_int (buf : string) (unsigned : bool) : Z :=
  let u := le_decode buf in
  if unsigned then u
  else if 32768 <=? u then u - 65536 else u.

(** Modelled from the spec: numbers.Integer.from_int, which stores a
    Python integer of the range -32768...32767 (with [unsigned],
    0...65535) in two's complement and raises Overflow outside it. *)
Definition from_int (in_int : Z) (unsigned : bool) : result value :=
  let ok := if unsigned then (0 <=? in_int) && (in_int <=? 65535)
            else (-32768 <=? in_int) && (in_int <=? 32767) in
  if ok then Ok (Integer (le_encode 2 (in_int mod 65536)))
  else Raise (RunError OVERFLOW).

End IntegerOps.

(** ** numbers.Float, from the byte layout of the spec *)

Module FloatOps.

(** Modelled from the spec: the class attribute [digits] of numbers.py,
    the native digit count: 7 for Single, 16 for Double. *)
Definition digits (f : Float) : Z :=
  match fclass f with SingleClass => 7 | DoubleClass => 16 end.

(** Modelled from the spec: the class attribute [exp_sign], the exponent
    letter: E for Single, D for Double. *)
Definition exp_sign (f : Float) : ascii :=
  match fclass f with SingleClass => "E" | DoubleClass => "D" end%char.

(** Modelled from the spec: the class attribute [sigil]. *)
Definition fsigil (f : Float) : ascii :=
  typechar_ascii (class_sigil (fclass f)).

(** The exponent byte, [buffer[-1]]. *)
Fixpoint exp_byte (buf : string) : ascii :=
  match buf with
  | EmptyString => zero
  | String c EmptyString => c
  | String _ rest => exp_byte rest
  end.

(** Apply [g] to [buffer[-2]], the byte that holds the sign bit. *)
Fixpoint on_sign_byte (g : ascii -> ascii) (buf : string) : string :=
  match buf with
  | String m (String e EmptyString) => String (g m) (String e EmptyString)
  | String c rest => String c (on_sign_byte g rest)
  | EmptyString => EmptyString
  end.

Fixpoint sign_byte (buf : string) : ascii :=
  match buf with
  | String m (String e EmptyString) => m
  | String _ rest => sign_byte rest
  | EmptyString => zero
  end.

Definition msb (c : ascii) : bool :=
  match c with Ascii _ _ _ _ _ _ _ b7 => b7 end.

Definition set_msb (b : bool) (c : ascii) : ascii :=
  match c with Ascii b0 b1 b2 b3 b4 b5 b6 _ => Ascii b0 b1 b2 b3 b4 b5 b6 b end.

Definition flip_msb (c : ascii) : ascii := set_msb (negb (msb c)) c.

(** Modelled from the spec: numbers.Float.is_zero; zero is an exponent
    byte of 0. *)
Definition is_zero (f : Float) : bool := Ascii.eqb (exp_byte (fbuf f)) zero.

(** Modelled from the spec: numbers.Float.is_negative; the sign is the
    top bit of the byte before the exponent. *)
Definition is_negative (f : Float) : bool := msb (sign_byte (fbuf f)).

(** Modelled from the spec: numbers.Float.iabs clears the sign bit. *)
Definition iabs (f : Float) : Float :=
  mkFloat (fclass f) (on_sign_byte (set_msb false) (fbuf f)).

(** Modelled from the spec: numbers.Float.ineg flips the sign bit; zero
    remains zero. *)
Definition ineg (f : Float) : Float :=
  if is_zero f then f
  else mkFloat (fclass f) (on_sign_byte flip_msb (fbuf f)).

(** Modelled from the spec: numbers.Single.from_integer widens an
    Integer to the 4-byte MBF encoding of the same value: 23 mantissa
    bits under an implicit leading 1, the sign in the top bit of byte 2,
    the exponent byte in excess such that 1.0 is 00 00 00 81. *)
Definition single_from_int (n : Z) : string :=
  if n =? 0 then Py.mul zero 4
  else
    let a := Z.abs n in
    let k := Z.log2 a in
    let m := Z.shiftl a (23 - k) - 2 ^ 23 in
    let s := if n <? 0 then 128 else 0 in
    String (Py.chr (m mod 256))
      (String (Py.chr ((m / 256) mod 256))
         (String (Py.chr (m / 65536 + s))
            (String (Py.chr (129 + k)) EmptyString))).

(** Modelled from the spec: [Single().from_integer(num)]. *)
Definition from_integer (buf : string) : Float :=
  mkFloat SingleClass (single_from_int (IntegerOps.to_int buf false)).

End FloatOps.

(** ** What values.py takes from its collaborators *)

(** The methods of numbers.py that values.py calls and whose results
    depend on MBF arithmetic.  Integer buffers and float buffers are passed
    as byte strings. *)
Record Numbers : Type := {
  (** [Float.to_decimal(digits=None)]: mantissa and decimal exponent. *)
  to_decimal : Float -> option Z -> Z * Z;
  (** [Float.iround()] as a Python int: the nearest whole number. *)
  float_round : Float -> Z;
  (** [Double.to_single()] *)
  double_to_single : string -> string;
  (** [Double().from_integer(num)] *)
  double_from_integer : string -> string;
  (** [Double().from_single(num)] *)
  double_from_single : string -> string;
  (** [left.gt(right)] and [left.eq(right)] on two numbers of one class. *)
  number_gt : value -> value -> bool;
  number_eq : value -> value -> bool;
  (** [Integer.to_str(leading_space, type_sign)] *)
  integer_to_str : string -> bool -> bool -> string
}.

(** The string space: [copy] gives the bytes a descriptor stands for. *)
Record StringSpace : Type := {
  copy : string -> string
}.

Module Values.

Section Facade.

Variable numbers : Numbers.
Variable strings : StringSpace.

(** [self._strings.copy(pass_string(x))] *)
Definition copy_string (x : value) : result string :=
  s <- pass_string x ;;
  match s with
  | Str desc => Ok (copy strings desc)
  | _ => Raise AttributeError
  end.

(** Modelled from the spec: the method [to_integer(unsigned)] of the
    classes of numbers.py.  An Integer is returned as it is; a float is
    rounded and range-checked, with Overflow outside -32768...32767 (or
    0...65535 with [unsigned]).  A string tuple has no such method. *)
Definition method_to_integer (num : value) (unsigned : bool) : result value :=
  match num with
  | Integer buf => Ok (Integer buf)
  | Num f => IntegerOps.from_int (float_round numbers f) unsigned
  | Str _ => Raise AttributeError
  end.

(** [num.to_int(unsigned)] on the result of a conversion to Integer. *)
Definition method_to_int (num : value) (unsigned : bool) : result Z :=
  match num with
  | Integer buf => Ok (IntegerOps.to_int buf unsigned)
  | _ => Raise AttributeError
  end.

(** [Values.to_integer] *)
Definition to_integer (inp : value) (unsigned : bool) : result value :=
  match sigil inp with
  | STR => Raise (RunError TYPE_MISMATCH)
  | _ => method_to_integer inp unsigned
  end.

(** [Values.to_single] *)
Definition to_single (num : value) : result value :=
  match num with
  | Str _ => Raise (RunError TYPE_MISMATCH)
  | Integer buf => Ok (Num (FloatOps.from_integer buf))
  | Num f =>
      match fclass f with
      | SingleClass => Ok (Num f)
      | DoubleClass => Ok (Single (double_to_single numbers (fbuf f)))
      end
  end.

(** [Values.to_double] *)
Definition to_double (num : value) : result value :=
  match num with
  | Str _ => Raise (RunError TYPE_MISMATCH)
  | Integer buf => Ok (Double (double_from_integer numbers buf))
  | Num f =>
      match fclass f with
      | SingleClass => Ok (Double (double_from_single numbers (fbuf f)))
      | DoubleClass => Ok (Num f)
      end
  end.

(** [Values.to_float] *)
Definition to_float (num : value) (allow_double : bool) : result value :=
  match sigil num, allow_double with
  | DBL, true => Ok num
  | _, _ => to_single num
  end.

(** [Values.to_most_precise] *)
Definition to_most_precise (left right : value) : result (value * value) :=
  let has t v := match sigil v, t with
                 | DBL, DBL | SNG, SNG | INT, INT => true
                 | _, _ => false
                 end in
  if has DBL left || has DBL right then
    l <- to_double left ;; r <- to_double right ;; Ok (l, r)
  else if has SNG left || has SNG right then
    l <- to_single left ;; r <- to_single right ;; Ok (l, r)
  else if has INT left || has INT right then
    l <- to_integer left false ;; r <- to_integer right false ;; Ok (l, r)
  else Raise (RunError TYPE_MISMATCH).

(** [Values.from_bool] *)
Definition from_bool (boo : bool) : result value :=
  if boo then from_bytes (Py.mul (Py.chr 255) 2) else from_bytes (Py.mul zero 2).

(** [x.clone().ineg()] and [x.clone().iabs()] on the result of
    [to_float]. *)
Definition float_method (m : Float -> Float) (x : value) : result value :=
  match x with
  | Num f => Ok (Num (m f))
  | _ => Raise AttributeError
  end.

(** [Values.abs] *)
Definition abs (inp : value) : result value :=
  match sigil inp with
  | STR => Ok inp
  | _ => x <- to_float inp true ;; float_method FloatOps.iabs x
  end.

(** [Values.negate] *)
Definition negate (inp : value) : result value :=
  match sigil inp with
  | STR => Ok inp
  | _ => x <- to_float inp true ;; float_method FloatOps.ineg x
  end.

(** The operands of the bitwise operators:
    [x.to_integer().to_int(unsigned=True)]. *)
Definition unsigned_view (x : value) : result Z :=
  i <- method_to_integer x false ;; method_to_int i true.

(** [Values.bitwise_xor] *)
Definition bitwise_xor (left right : value) : result value :=
  l <- unsigned_view left ;;
  r <- unsigned_view right ;;
  IntegerOps.from_int (Z.lxor l r) true.

(** [Values.bitwise_eqv] *)
Definition bitwise_eqv (left right : value) : result value :=
  l <- unsigned_view left ;;
  r <- unsigned_view right ;;
  IntegerOps.from_int (65535 - Z.lxor l r) true.

(** [Values._bool_eq] *)
Definition _bool_eq (left right : value) : result bool :=
  match sigil left with
  | STR =>
      l <- copy_string left ;;
      r <- copy_string right ;;
      Ok (String.eqb l r)
  | _ =>
      p <- to_most_precise left right ;;
      Ok (number_eq numbers (fst p) (snd p))
  end.

(** [left[i]] for an index within the string. *)
Definition byte_at (s : string) (i : nat) : Z :=
  match String.get i s with
  | Some c => Py.ord c
  | None => 0
  end.

(** The loop of [bool_gt] over [range(shortest)]: [Some b] when it
    returns [b], [None] when it runs to the end. *)
Fixpoint gt_scan (left right : string) (range : list nat) : option bool :=
  match range with
  | [] => None
  | i :: rest =>
      if byte_at left i >? byte_at right i then Some true
      else if byte_at left i <? byte_at right i then Some false
      else gt_scan left right rest
  end.

Definition string_gt (left right : string) : bool :=
  let shortest := Nat.min (String.length left) (String.length right) in
  match gt_scan left right (seq 0 shortest) with
  | Some b => b
  | None => Py.len left >? Py.len right
  end.

(** [Values.bool_gt] *)
Definition bool_gt (left right : value) : result bool :=
  match sigil left with
  | STR =>
      l <- copy_string left ;;
      r <- copy_string right ;;
      Ok (string_gt l r)
  | _ =>
      p <- to_most_precise left right ;;
      Ok (number_gt numbers (fst p) (snd p))
  end.

(** [Values.equals] *)
Definition equals (left right : value) : result value :=
  b <- _bool_eq left right ;; from_bool b.

(** [Values.not_equals] *)
Definition not_equals (left right : value) : result value :=
  b <- _bool_eq left right ;; from_bool (negb b).

(** [Values.gt] *)
Definition gt (left right : value) : result value :=
  b <- bool_gt left right ;; from_bool b.

(** [Values.gte] *)
Definition gte (left right : value) : result value :=
  b <- bool_gt right left ;; from_bool (negb b).

(** [Values.lte] *)
Definition lte (left right : value) : result value :=
  b <- bool_gt left right ;; from_bool (negb b).

(** [Values.lt] *)
Definition lt (left right : value) : result value :=
  b <- bool_gt right left ;; from_bool b.

(** [Values.cvi] *)
Definition cvi (x : value) : result value :=
  cstr <- copy_string x ;;
  _ <- throw_if (Py.len cstr <? 2) ;;
  from_bytes (Py.slice_to cstr 2).

(** [Values.cvs] *)
Definition cvs (x : value) : result value :=
  cstr <- copy_string x ;;
  _ <- throw_if (Py.len cstr <? 4) ;;
  from_bytes (Py.slice_to cstr 4).

(** [Values.cvd] *)
Definition cvd (x : value) : result value :=
  cstr <- copy_string x ;;
  _ <- throw_if (Py.len cstr <? 8) ;;
  from_bytes (Py.slice_to cstr 8).

(** [Values.instr]; [start] is a Python int. *)
Definition instr (big small : value) (start : Z) : result value :=
  big <- copy_string big ;;
  small <- copy_string small ;;
  if String.eqb big "" || (start >? Py.len big) then Ok (null INT)
  else
    let find := Py.find (Py.slice_from big (start - 1)) small in
    if find =? -1 then Ok (null INT)
    else IntegerOps.from_int (start + find) false.

End Facade.

End Values.

(** ** String representations of numbers *)

Definition char (c : ascii) : string := String c EmptyString.

(** [_get_digits] *)
Definition _get_digits (num digits : Z) (remove_trailing : bool) : string :=
  let digitstr := Py.str_nat (Z.abs num) in
  let digitstr :=
    Py.mul "0" (digits - Py.len digitstr) ++ Py.slice_to digitstr digits in
  if remove_trailing then Py.rstrip "0" digitstr else digitstr.

(** [_scientific_notation] *)
Definition _scientific_notation (digitstr : string) (exp10 : Z)
    (exp_sign : ascii) (digits_to_dot : Z) (force_dot : bool) : string :=
  let valstr := Py.slice_to digitstr digits_to_dot in
  let valstr :=
    if Py.len digitstr >? digits_to_dot then
      valstr ++ "." ++ Py.slice_from digitstr digits_to_dot
    else if (Py.len digitstr =? digits_to_dot) && force_dot then
      valstr ++ "."
    else valstr in
  let exponent := exp10 - digits_to_dot + 1 in
  let valstr := valstr ++ char exp_sign in
  let valstr := if exponent <? 0 then valstr ++ "-" else valstr ++ "+" in
  valstr ++ _get_digits (Z.abs exponent) 2 false.

(** [_decimal_notation]; [type_sign] is the empty string or the sigil. *)
Definition _decimal_notation (digitstr : string) (exp10 : Z)
    (type_sign : string) (force_dot : bool) : string :=
  let exp10 := exp10 + 1 in
  if exp10 >=? Py.len digitstr then
    let valstr := digitstr ++ Py.mul "0" (exp10 - Py.len digitstr) in
    let valstr := if force_dot then valstr ++ "." else valstr in
    if negb force_dot || String.eqb type_sign "#" then valstr ++ type_sign
    else valstr
  else if exp10 >? 0 then
    let valstr :=
      Py.slice_to digitstr exp10 ++ "." ++ Py.slice_from digitstr exp10 in
    if String.eqb type_sign "#" then valstr ++ type_sign else valstr
  else
    let valstr := if force_dot then "0" else "" in
    let valstr := valstr ++ "." ++ Py.mul "0" (- exp10) ++ digitstr in
    if String.eqb type_sign "#" then valstr ++ type_sign else valstr.

Section Representation.

Variable numbers : Numbers.

(** [float_to_str] *)
Definition float_to_str (n_in : Float) (leading_space type_sign : bool)
    : string :=
  if FloatOps.is_zero n_in then
    Py.mul " " (Z.b2z leading_space) ++ "0"
      ++ Py.mul (FloatOps.fsigil n_in) (Z.b2z type_sign)
  else
    let sign :=
      if FloatOps.is_negative n_in then "-"
      else if leading_space then " " else "" in
    let '(num, exp10) := to_decimal numbers n_in None in
    let ndigits := FloatOps.digits n_in in
    let digitstr := _get_digits num ndigits true in
    let exp10 := exp10 + (ndigits - 1) in
    if (exp10 >? ndigits - 1) || (Py.len digitstr - exp10 >? ndigits + 1)
    then
      sign ++ _scientific_notation digitstr exp10 (FloatOps.exp_sign n_in)
                1 false
    else
      let type_sign :=
        if negb type_sign then "" else char (FloatOps.fsigil n_in) in
      sign ++ _decimal_notation digitstr exp10 type_sign false.

(** [number_to_str]; the guard on a missing argument does not apply to a
    value. *)
Definition number_to_str (inp : value) (screen write : bool)
    : result string :=
  let leading_space := screen && negb write in
  let type_sign := negb screen && negb write in
  match inp with
  | Integer buf => Ok (integer_to_str numbers buf leading_space type_sign)
  | Num f => Ok (float_to_str f leading_space type_sign)
  | Str _ => Raise (RunError TYPE_MISMATCH)
  end.

(** [_format_float_scientific] *)
Definition _format_float_scientific (expr : Float)
    (digits_before decimals : Z) (force_dot : bool) : string :=
  let work_digits := Z.min (FloatOps.digits expr) (digits_before + decimals) in
  let finish (digitstr : string) (exp10 : Z) : string :=
    let exp10 := if work_digits =? 0 then exp10 + 1 else exp10 in
    let exp10 := exp10 + (digits_before + decimals - 1) in
    _scientific_notation digitstr exp10 (FloatOps.exp_sign expr)
      digits_before force_dot in
  if FloatOps.is_zero expr then
    if negb force_dot then
      if Ascii.eqb (FloatOps.exp_sign expr) "E" then "E+00" else "0D+00"
    else finish (Py.mul "0" (digits_before + decimals)) 0
  else
    let '(num, exp10) :=
      to_decimal numbers expr
        (Some (if work_digits =? 0 then 1 else work_digits)) in
    let digitstr := _get_digits num work_digits true in
    let digitstr :=
      if Py.len digitstr <? digits_before + decimals then
        digitstr ++ Py.mul "0" (digits_before + decimals - Py.len digitstr)
      else digitstr in
    finish digitstr exp10.

(** [_format_float_fixed] *)
Definition _format_float_fixed (expr : Float) (decimals : Z)
    (force_dot : bool) : string :=
  let '(num, exp10) := to_decimal numbers expr None in
  let '(num, exp10) :=
    if - exp10 >? decimals then
      let nwork := FloatOps.digits expr - (- exp10 - decimals) in
      to_decimal numbers expr (Some nwork)
    else (num, exp10) in
  let digitstr := Py.str_nat (Z.abs num) in
  let nbefore := Py.len digitstr + exp10 in
  let digitstr := digitstr ++ Py.mul "0" (decimals + exp10) in
  _decimal_notation digitstr (nbefore - 1) "" force_dot.

(** [format_number] *)
Definition format_number (value : Float) (tokens : string)
    (digits_before decimals : Z) : result string :=
  if digits_before + decimals >? 24 then Raise (RunError IFC)
  else
    let has_dollar := Py.contains "$" tokens in
    let force_dot := Py.contains "." tokens in
    let neg := FloatOps.is_negative value in
    first <- Py.index tokens 0 ;;
    '(valstr, post_sign, digits_before) <-
      (if Ascii.eqb first "+" then
         Ok (if neg then "-" else "+", "", digits_before)
       else
         last <- Py.index tokens (-1) ;;
         if Ascii.eqb last "+" then
           Ok ("", if neg then "-" else "+", digits_before)
         else if Ascii.eqb last "-" then
           Ok ("", if neg then "-" else " ", digits_before)
         else
           Ok (if neg then "-" else "", "",
               if has_dollar then digits_before
               else if digits_before - 1 <? 0 then 0
                    else digits_before - 1)) ;;
    let value := FloatOps.iabs value in
    let valstr := valstr ++ (if has_dollar then "$" else "") in
    let valstr :=
      if Py.contains "^" tokens then
        valstr ++ _format_float_scientific value digits_before decimals
                    force_dot
      else valstr ++ _format_float_fixed value decimals force_dot in
    let valstr := valstr ++ post_sign in
    if Py.len valstr >? Py.len tokens then Ok ("%" ++ valstr)
    else
      Ok (Py.mul (if Py.contains "*" tokens then "*" else " ")
            (Py.len tokens - Py.len valstr) ++ valstr).

End Representation.

(** ** A reference instance of the numbers interface

    The exact value of an MBF buffer and the conversions computed on it,
    used to run the facade and the formatters on concrete values. *)

Module Mbf.

(** Bits of mantissa, the implicit leading 1 included. *)
Definition mant_bits (buf : string) : Z := 8 * (Py.len buf - 1).

(** The mantissa bytes, without the exponent byte. *)
Definition payload (buf : string) : Z :=
  IntegerOps.le_decode buf mod 2 ^ mant_bits buf.

(** The mantissa with its leading 1 in place of the sign bit. *)
Definition mantissa (buf : string) : Z :=
  payload buf mod 2 ^ (mant_bits buf - 1) + 2 ^ (mant_bits buf - 1).

(** A nonzero value is [mantissa * 2 ^ exp2], negated when the sign bit
    is set; 1.0 is 00 00 00 81. *)
Definition exp2 (buf : string) : Z :=
  Py.ord (FloatOps.exp_byte buf) - 128 - mant_bits buf.

Definition is_zero (buf : string) : bool :=
  Ascii.eqb (FloatOps.exp_byte buf) zero.

Definition negative (buf : string) : bool :=
  FloatOps.msb (FloatOps.sign_byte buf).

(** The magnitude as a fraction [numerator / denominator]. *)
Definition numerator (buf : string) : Z :=
  if is_zero buf then 0 else mantissa buf * 2 ^ Z.max 0 (exp2 buf).

Definition denominator (buf : string) : Z := 2 ^ Z.max 0 (- exp2 buf).

(** [a / b] rounded to the nearest integer, ties to even. *)
Definition round_div (a b : Z) : Z :=
  let q := a / b in
  let r := a mod b in
  if 2 * r <? b then q
  else if 2 * r >? b then q + 1
  else if Z.even q then q else q + 1.

(** The magnitude divided by [10 ^ x], rounded. *)
Definition scaled (buf : string) (x : Z) : Z :=
  round_div (numerator buf * 10 ^ Z.max 0 (- x))
            (denominator buf * 10 ^ Z.max 0 x).

(** The least decimal exponent from [x] on that leaves at most [digits]
    digits of mantissa. *)
Fixpoint find_exp10 (fuel : nat) (buf : string) (digits x : Z) : Z :=
  match fuel with
  | O => x
  | S fuel' =>
      if scaled buf x <? 10 ^ digits then x
      else find_exp10 fuel' buf digits (x + 1)
  end.

(** Modelled from the spec: numbers.Float.to_decimal, an integer mantissa
    of [digits] significant digits (by default the native count of the
    class) and a decimal exponent with value = mantissa * 10 ^ exp10,
    rounded half to even. *)
Definition to_decimal (f : Float) (digits : option Z) : Z * Z :=
  let digits := match digits with
                | Some d => d
                | None => FloatOps.digits f
                end in
  if is_zero (fbuf f) then (0, 0)
  else
    let exp10 := find_exp10 160 (fbuf f) digits (-80) in
    let m := scaled (fbuf f) exp10 in
    (if negative (fbuf f) then - m else m, exp10).

(** The value, when it is a whole number. *)
Definition exact_int (f : Float) : option Z :=
  let n := numerator (fbuf f) in
  let d := denominator (fbuf f) in
  if n mod d =? 0 then
    Some (if negative (fbuf f) then - (n / d) else n / d)
  else None.

(** Modelled from the spec: numbers.Float.iround, the value rounded to
    the nearest integer, ties to even. *)
Definition round_int (f : Float) : Z :=
  let m := scaled (fbuf f) 0 in
  if negative (fbuf f) then - m else m.

(** An MBF buffer of [bytes] bytes from sign, mantissa and exponent
    byte. *)
Definition encode (bytes : nat) (neg : bool) (mant e : Z) : string :=
  let bits := 8 * (Z.of_nat bytes - 1) in
  let m := mant mod 2 ^ (bits - 1) + (if neg then 2 ^ (bits - 1) else 0) in
  IntegerOps.le_encode bytes (m + e * 2 ^ bits).

(** Modelled from the spec: numbers.Double.to_single, the nearest
    Single. *)
Definition double_to_single (buf : string) : string :=
  if is_zero buf then Py.mul zero 4
  else
    let m := round_div (mantissa buf) (2 ^ 32) in
    let e := Py.ord (FloatOps.exp_byte buf) in
    if m =? 2 ^ 24 then encode 4 (negative buf) (2 ^ 23) (e + 1)
    else encode 4 (negative buf) m e.

(** Modelled from the spec: numbers.Double.from_single, the same value
    with four more mantissa bytes. *)
Definition double_from_single (buf : string) : string :=
  Py.mul zero 4 ++ buf.

(** Modelled from the spec: numbers.Double.from_integer. *)
Definition double_from_integer (buf : string) : string :=
  double_from_single (fbuf (FloatOps.from_integer buf)).

(** The value times [2 ^ 400], an integer for every buffer. *)
Definition fixed (v : value) : Z :=
  match v with
  | Integer buf => IntegerOps.to_int buf false * 2 ^ 400
  | Num f =>
      let m := numerator (fbuf f) * 2 ^ 400 / denominator (fbuf f) in
      if negative (fbuf f) then - m else m
  | Str _ => 0
  end.

(** Modelled from the spec: the comparisons of two numbers of one
    class; equality is that of the encodings. *)
Definition number_gt (left right : value) : bool := fixed left >? fixed right.

Definition number_eq (left right : value) : bool :=
  String.eqb (to_bytes left) (to_bytes right).

(** Modelled from the spec: numbers.Integer.to_str, with a leading space
    for a non-negative number on request. *)
Definition integer_to_str (buf : string) (leading_space type_sign : bool)
    : string :=
  let n := IntegerOps.to_int buf false in
  (if n <? 0 then "-" else if leading_space then " " else "")
    ++ Py.str_nat (Z.abs n).

Definition numbers : Numbers :=
  Build_Numbers to_decimal round_int double_to_single double_from_integer
    double_from_single number_gt number_eq integer_to_str.

(** Modelled from the spec: a string space over a block of memory; a
    descriptor is a length byte and a 2-byte little-endian address. *)
Definition string_space (memory : string) : StringSpace :=
  {| copy := fun desc =>
       match desc with
       | String length address =>
           String.substring (Z.to_nat (IntegerOps.le_decode address))
             (nat_of_ascii length) memory
       | EmptyString => EmptyString
       end |}.

Definition descriptor (length address : Z) : string :=
  String (Py.chr length) (IntegerOps.le_encode 2 address).

End Mbf.

(** Single 12345.678: the nearest Single is 12345.677734375. *)
Definition single_12345_678 : Float :=
  mkFloat SingleClass (IntegerOps.le_encode 4 0x8E40E6B6).

Definition single_zero : Float := mkFloat SingleClass (Py.mul zero 4).
Definition double_zero : Float := mkFloat DoubleClass (Py.mul zero 8).

(** ** Definitions used by the statements *)

(** [TYPE_TO_SIZE] *)
Definition TYPE_TO_SIZE (t : typechar) : Z :=
  match t with STR => 3 | INT => 2 | SNG => 4 | DBL => 8 end.

(** The sigil and the storage size of a value agree. *)
Definition well_sized (v : value) : bool :=
  Py.len (to_bytes v) =? TYPE_TO_SIZE (sigil v).

(** The three conversions and the number of bytes each one reads. *)
Inductive conversion : Type := CVI | CVS | CVD.

Definition conversion_size (c : conversion) : Z :=
  match c with CVI => 2 | CVS => 4 | CVD => 8 end.

Definition convert (strings : StringSpace) (c : conversion) (x : value)
    : result value :=
  match c with
  | CVI => Values.cvi strings x
  | CVS => Values.cvs strings x
  | CVD => Values.cvd strings x
  end.

(** [negate(negate(x))] *)
Definition negate_twice (numbers : Numbers) (x : value) : result value :=
  n <- Values.negate numbers x ;; Values.negate numbers n.

(** The Integer whose value is [n]. *)
Definition integer_of (n : Z) : value :=
  Integer (IntegerOps.le_encode 2 (n mod 65536)).

(** Single 32768 and Single -32768: exponent byte 0x90, and the sign bit. *)
Definition single_32768 : value := Single (IntegerOps.le_encode 4 0x90000000).
Definition single_minus_32768 : value :=
  Single (IntegerOps.le_encode 4 0x90800000).

(** The integers from [lo], [count] of them. *)
Fixpoint z_range (lo : Z) (count : nat) : list Z :=
  match count with
  | O => []
  | S count' => lo :: z_range (lo + 1) count'
  end.

(** The lexicographic order on byte strings, decided: [lex_lt a b] is
    [a < b]. *)
Fixpoint lex_lt (a b : string) : bool :=
  match a, b with
  | _, EmptyString => false
  | EmptyString, String _ _ => true
  | String x a', String y b' =>
      if Py.ord x <? Py.ord y then true
      else if Py.ord y <? Py.ord x then false
      else lex_lt a' b'
  end.

(** The lexicographic order, as it is defined: [a] is less than [b] when
    [a] is a proper prefix of [b], or when the two differ first at a byte
    that is smaller in [a]. *)
Inductive lex_less : string -> string -> Prop :=
| lex_shorter (p : string) (c : ascii) (s : string) :
    lex_less p (p ++ String c s)
| lex_byte (p : string) (x y : ascii) (a b : string) :
    Py.ord x < Py.ord y ->
    lex_less (p ++ String x a) (p ++ String y b).

(** Every character of [s] satisfies [p]. *)
Fixpoint all_chars (p : ascii -> bool) (s : string) : bool :=
  match s with
  | EmptyString => true
  | String c s' => p c && all_chars p s'
  end.

(** The characters that PRINT USING puts around the digits: overflow mark,
    fillers, signs and the currency sign. *)
Definition is_fill_char (c : ascii) : bool := Py.contains c "%* +-$".

(** What the spec gives as the digits of a zero in scientific format. *)
Definition zero_digits (f : Float) : string :=
  match fclass f with
  | SingleClass => "E+00"
  | DoubleClass => "0D+00"
  end.

(** The decimal digits. *)
Definition is_digit (c : ascii) : bool := Py.contains c "0123456789".

(** The characters of a number in decimal notation: digits, the point and
    the sigils of Single and Double. *)
Definition is_decimal_char (c : ascii) : bool := Py.contains c "0123456789.!#".

(** The leading sign that [float_to_str] puts before a nonzero number. *)
Definition leading_sign (n_in : Float) (leading_space : bool) : string :=
  if FloatOps.is_negative n_in then "-"
  else if leading_space then " " else "".

(** The sigil that [_decimal_notation] appends on the listing path. *)
Definition listing_sigil (f : Float) (digitstr : string) (exp10 : Z) : string :=
  match fclass f with
  | DoubleClass => "#"
  | SingleClass => if exp10 + 1 >=? Py.len digitstr then "!" else ""
  end.

(** ** More of the facade *)

(** Modelled from the spec: error.range_check, which raises Illegal
    Function Call when [val] lies outside [lower...upper]. *)
Definition range_check (lower upper val : Z) : result unit :=
  if (val <? lower) || (upper <? val) then Raise (RunError IFC) else Ok tt.

(** [s[a:b]] *)
Definition py_slice (s : string) (a b : Z) : string :=
  Py.take (Py.bound s b - Py.bound s a) (Py.drop (Py.bound s a) s).

Module Facade.

Section Numeric.

Variable numbers : Numbers.

(** [Float.to_int()] of numbers.py, the float as a Python int. *)
Variable float_to_int : Float -> result Z.

(** [Values.to_int] *)
Definition to_int (inp : value) (unsigned : bool) : result Z :=
  i <- Values.to_integer numbers inp unsigned ;;
  Values.method_to_int i unsigned.

(** [Values.to_type] *)
Definition to_type (tc : typechar) (val : value) : result value :=
  match tc with
  | STR => pass_string val
  | INT => Values.to_integer numbers val false
  | SNG => Values.to_single numbers val
  | DBL => Values.to_double numbers val
  end.

(** [right.to_int()], the method of the number classes. *)
Definition number_to_int (right : value) : result Z :=
  match right with
  | Integer buf => Ok (IntegerOps.to_int buf false)
  | Num f => float_to_int f
  | Str _ => Raise AttributeError
  end.

(** [Values.bitwise_not] *)
Definition bitwise_not (right : value) : result value :=
  r <- number_to_int right ;;
  IntegerOps.from_int (- r - 1) false.

(** [Values.bitwise_and] *)
Definition bitwise_and (left right : value) : result value :=
  l <- Values.unsigned_view numbers left ;;
  r <- Values.unsigned_view numbers right ;;
  IntegerOps.from_int (Z.land l r) true.

(** [Values.bitwise_or] *)
Definition bitwise_or (left right : value) : result value :=
  l <- Values.unsigned_view numbers left ;;
  r <- Values.unsigned_view numbers right ;;
  IntegerOps.from_int (Z.lor l r) true.

(** [Values.bitwise_imp] *)
Definition bitwise_imp (left right : value) : result value :=
  l <- Values.unsigned_view numbers left ;;
  r <- Values.unsigned_view numbers right ;;
  IntegerOps.from_int (Z.lor (65535 - l) r) true.

End Numeric.

(** [Values.asc] *)
Definition asc (strings : StringSpace) (x : value) : result value :=
  s <- Values.copy_string strings x ;;
  _ <- throw_if (String.eqb s "") ;;
  c <- Py.index s 0 ;;
  IntegerOps.from_int (Py.ord c) false.

(** The functions that return a new string.  [store] allocates it and
    returns its descriptor; the string space after the call comes with
    the result. *)
Section Stored.

Variable numbers : Numbers.
Variable Space : Type.
Variable view : Space -> StringSpace.
Variable store : Space -> string -> result (value * Space).

(** [self._strings.copy(s)] without a type guard, for a string value. *)
Definition copy_value (sp : Space) (s : value) : result string :=
  match s with
  | Str desc => Ok (copy (view sp) desc)
  | _ => Raise AttributeError
  end.

(** [Values.concat] *)
Definition concat (sp : Space) (left right : value) : result (value * Space) :=
  l <- Values.copy_string (view sp) left ;;
  r <- Values.copy_string (view sp) right ;;
  store sp (l ++ r).

(** [Values.mki] *)
Definition mki (sp : Space) (x : value) : result (value * Space) :=
  i <- Values.to_integer numbers x false ;; store sp (to_bytes i).

(** [Values.mks] *)
Definition mks (sp : Space) (x : value) : result (value * Space) :=
  s <- Values.to_single numbers x ;; store sp (to_bytes s).

(** [Values.mkd] *)
Definition mkd (sp : Space) (x : value) : result (value * Space) :=
  d <- Values.to_double numbers x ;; store sp (to_bytes d).

(** [Values.character] *)
Definition character (sp : Space) (x : value) : result (value * Space) :=
  val <- to_int numbers x false ;;
  _ <- range_check 0 255 val ;;
  store sp (char (Py.chr val)).

(** [Values.space] *)
Definition space (sp : Space) (x : value) : result (value * Space) :=
  num <- to_int numbers x false ;;
  _ <- range_check 0 255 num ;;
  store sp (Py.mul " " num).

(** [Values.mid]; [num] is [None] when the argument is left out. *)
Definition mid (sp : Space) (s start : value) (num : option value)
    : result (value * Space) :=
  s <- copy_value sp s ;;
  start <- to_int numbers start false ;;
  num <- match num with
         | None => Ok (Py.len s)
         | Some n => to_int numbers n false
         end ;;
  _ <- range_check 1 255 start ;;
  _ <- range_check 0 255 num ;;
  if (num =? 0) || (start >? Py.len s) then Ok (null STR, sp)
  else
    let start := start - 1 in
    let stop := start + num in
    let stop := Z.min stop (Py.len s) in
    store sp (py_slice s start stop).

(** [Values.left] *)
Definition left (sp : Space) (s stop : value) : result (value * Space) :=
  s <- copy_value sp s ;;
  stop <- to_int numbers stop false ;;
  _ <- range_check 0 255 stop ;;
  if stop =? 0 then Ok (null STR, sp)
  else
    let stop := Z.min stop (Py.len s) in
    store sp (Py.slice_to s stop).

(** [Values.right] *)
Definition right (sp : Space) (s stop : value) : result (value * Space) :=
  s <- copy_value sp s ;;
  stop <- to_int numbers stop false ;;
  _ <- range_check 0 255 stop ;;
  if stop =? 0 then Ok (null STR, sp)
  else
    let stop := Z.min stop (Py.len s) in
    store sp (Py.slice_from s (- stop)).

End Stored.

End Facade.

(** What the facade relies on from the string space: a stored string is a
    string value, and copying it from the space after the call gives the
    bytes back. *)
Definition store_law (Space : Type) (view : Space -> StringSpace)
    (store : Space -> string -> result (value * Space)) : Prop :=
  forall sp s d sp',
    store sp s = Ok (d, sp') ->
    exists desc, d = Str desc /\ copy (view sp') desc = s.

(** A string space for running the facade: the memory is one byte string,
    a new string goes to its end.  It refuses a string of more than 255
    bytes and an address beyond 16 bits ([error_code] has no number of its
    own for that). *)
Definition memory_store (memory s : string) : result (value * string) :=
  if (255 <? Py.len s) || (65535 <? Py.len memory)
  then Raise (RunError OVERFLOW)
  else Ok (Str (Mbf.descriptor (Py.len s) (Py.len memory)), memory ++ s).

(** The bits of a 16-bit word, inverted. *)
Definition invert16 (u : Z) : Z := Z.lxor 65535 u.

(** The most precise of two sigils of numbers. *)
Definition most_precise (a b : typechar) : typechar :=
  match a, b with
  | DBL, _ | _, DBL => DBL
  | SNG, _ | _, SNG => SNG
  | _, _ => INT
  end.

(** The two decimal digits of a number below 100. *)
Definition two_digits (e : Z) : string :=
  String (Py.chr (48 + e / 10)) (String (Py.chr (48 + e mod 10)) EmptyString).

(** The type of number that each of CVI, CVS, CVD reads and MKI$, MKS$,
    MKD$ writes. *)
Definition conversion_type (c : conversion) : typechar :=
  match c with CVI => INT | CVS => SNG | CVD => DBL end.

(** MKI$, MKS$ or MKD$. *)
Definition make (numbers : Numbers) (Space : Type)
    (store : Space -> string -> result (value * Space)) (c : conversion)
    (sp : Space) (x : value) : result (value * Space) :=
  match c with
  | CVI => Facade.mki numbers Space store sp x
  | CVS => Facade.mks numbers Space store sp x
  | CVD => Facade.mkd numbers Space store sp x
  end.

(** * Properties *)

(** ** Values computed by the helpers *)

Example str_nat_0 : Py.str_nat 0 = "0".
Proof. reflexivity. Qed.

Example str_nat_1234568 : Py.str_nat 1234568 = "1234568".
Proof. reflexivity. Qed.

Example rstrip_zeros : Py.rstrip "0" "1203000" = "1203".
Proof. reflexivity. Qed.

Example find_bc : Py.find "CABC" "BC" = 2.
Proof. reflexivity. Qed.

Example find_empty : Py.find "" "" = 0.
Proof. reflexivity. Qed.

Example find_missing : Py.find "ABC" "X" = -1.
Proof. reflexivity. Qed.

Example single_one : FloatOps.single_from_int 1 = IntegerOps.le_encode 4 (129 * 2 ^ 24).
Proof. reflexivity. Qed.


(** ** Bytes and 16-bit integers *)

Lemma ord_range (c : ascii) : 0 <= Py.ord c < 256.
Proof.
  unfold Py.ord. pose proof (N_ascii_bounded c). lia.
Qed.

Lemma ord_chr (n : Z) : 0 <= n < 256 -> Py.ord (Py.chr n) = n.
Proof.
  intros Hn. unfold Py.ord, Py.chr.
  rewrite N_ascii_embedding by lia. lia.
Qed.

Lemma le_decode_encode_2 (v : Z) :
  IntegerOps.le_decode (IntegerOps.le_encode 2 v) = v mod 65536.
Proof.
  cbn [IntegerOps.le_encode IntegerOps.le_decode].
  rewrite !ord_chr by (apply Z.mod_pos_bound; lia).
  pose proof (Z.div_mod v 256 ltac:(lia)) as Hv.
  pose proof (Z.div_mod (v / 256) 256 ltac:(lia)) as Hq.
  pose proof (Z.mod_pos_bound v 256 ltac:(lia)).
  pose proof (Z.mod_pos_bound (v / 256) 256 ltac:(lia)).
  apply Z.mod_unique with (q := v / 256 / 256); lia.
Qed.

Lemma le_decode_2_range (buf : string) :
  String.length buf = 2%nat -> 0 <= IntegerOps.le_decode buf < 65536.
Proof.
  destruct buf as [|a [|b [|c s]]]; try discriminate. intros _.
  cbn [IntegerOps.le_decode].
  pose proof (ord_range a). pose proof (ord_range b). lia.
Qed.

Lemma to_int_unsigned_encode (v : Z) :
  0 <= v < 65536 ->
  IntegerOps.to_int (IntegerOps.le_encode 2 v) true = v.
Proof.
  intros Hv. unfold IntegerOps.to_int.
  rewrite le_decode_encode_2. apply Z.mod_small. lia.
Qed.

Lemma to_int_signed_encode (v : Z) :
  -32768 <= v <= 32767 ->
  IntegerOps.to_int (IntegerOps.le_encode 2 (v mod 65536)) false = v.
Proof.
  intros Hv. unfold IntegerOps.to_int.
  rewrite le_decode_encode_2, Z.mod_mod by lia.
  destruct (Z.ltb_spec v 0).
  - replace (v mod 65536) with (v + 65536).
    + destruct (Z.leb_spec 32768 (v + 65536)); lia.
    + apply Z.mod_unique with (q := -1); lia.
  - rewrite Z.mod_small by lia.
    destruct (Z.leb_spec 32768 v); lia.
Qed.

(** ** Python string helpers *)

Lemma prefix_empty (s : string) : String.prefix "" s = true.
Proof. destruct s; reflexivity. Qed.

Lemma find_empty_sub (s : string) : Py.find s "" = 0.
Proof.
  unfold Py.find. destruct s; reflexivity.
Qed.

Lemma len_nonneg (s : string) : 0 <= Py.len s.
Proof. unfold Py.len. lia. Qed.

Lemma len_cons (c : ascii) (s : string) : Py.len (String c s) = Py.len s + 1.
Proof. unfold Py.len. cbn [String.length]. lia. Qed.

Lemma len_app (s t : string) : Py.len (s ++ t) = Py.len s + Py.len t.
Proof.
  induction s as [|c s IH]; cbn [append].
  - unfold Py.len at 2. cbn. lia.
  - rewrite !len_cons, IH. lia.
Qed.

Lemma len_take (n : nat) (s : string) :
  (n <= String.length s)%nat -> String.length (Py.take n s) = n.
Proof.
  revert s. induction n as [|n IH]; intros [|c s] Hn; cbn in *; try lia.
  rewrite IH; lia.
Qed.

Lemma app_empty_r (s : string) : s ++ "" = s.
Proof. induction s as [|c s IH]; cbn; [reflexivity | now rewrite IH]. Qed.

Lemma app_assoc (s t u : string) : (s ++ t) ++ u = s ++ t ++ u.
Proof. induction s as [|c s IH]; cbn; [reflexivity | now rewrite IH]. Qed.

(** ** CVI, CVS, CVD *)

Lemma from_bytes_take (n : nat) (s : string) (t : typechar) :
  (n <= String.length s)%nat ->
  SIZE_TO_TYPE (Z.of_nat n) = Ok t ->
  from_bytes (Py.take n s) =
    Ok match t with
       | STR => Str (Py.take n s)
       | INT => Integer (Py.take n s)
       | SNG => Single (Py.take n s)
       | DBL => Double (Py.take n s)
       end.
Proof.
  intros Hn Ht. unfold from_bytes, Py.len.
  rewrite len_take by exact Hn. rewrite Ht. destruct t; reflexivity.
Qed.

Ltac cv_cases s :=
  unfold Values.copy_string, pass_string, throw_if, Py.len; cbn [sigil bind];
  match goal with
  | |- context [Z.of_nat (String.length s) <? ?k] =>
      destruct (Z.ltb_spec (Z.of_nat (String.length s)) k) as [Hlt | Hge];
      cbn [bind is_run_error];
      [ auto
      | unfold Py.slice_to, Py.bound; cbn [Z.ltb Z.compare];
        rewrite (from_bytes_take (Z.to_nat k) s _) by
          (first [ lia | reflexivity ]); auto ]
  end.

(** What each conversion returns, by the length of its argument. *)
Lemma cv_results (strings : StringSpace) (desc : string) :
  let s := copy strings desc in
  (Values.cvi strings (Str desc) =
     if Py.len s <? 2 then Raise (RunError IFC)
     else Ok (Integer (Py.take 2 s)))
  /\ (Values.cvs strings (Str desc) =
     if Py.len s <? 4 then Raise (RunError IFC)
     else Ok (Single (Py.take 4 s)))
  /\ (Values.cvd strings (Str desc) =
     if Py.len s <? 8 then Raise (RunError IFC)
     else Ok (Double (Py.take 8 s))).
Proof.
  intros s. subst s.
  repeat split.
  - unfold Values.cvi. cv_cases (copy strings desc).
  - unfold Values.cvs. cv_cases (copy strings desc).
  - unfold Values.cvd. cv_cases (copy strings desc).
Qed.

(** C8.  CVI, CVS and CVD raise a runtime error exactly when their string
    argument has fewer than 2, 4 and 8 bytes; otherwise they return the
    Integer, Single and Double whose buffer is the first 2, 4 and 8 bytes. *)
Theorem cv_raises_exactly_when_short (strings : StringSpace) (desc : string) :
  let s := copy strings desc in
  (Values.cvi strings (Str desc) =
     if Py.len s <? 2 then Raise (RunError IFC)
     else Ok (Integer (Py.take 2 s)))
  /\ (Values.cvs strings (Str desc) =
     if Py.len s <? 4 then Raise (RunError IFC)
     else Ok (Single (Py.take 4 s)))
  /\ (Values.cvd strings (Str desc) =
     if Py.len s <? 8 then Raise (RunError IFC)
     else Ok (Double (Py.take 8 s)))
  /\ is_run_error (Values.cvi strings (Str desc)) = (Py.len s <? 2)
  /\ is_run_error (Values.cvs strings (Str desc)) = (Py.len s <? 4)
  /\ is_run_error (Values.cvd strings (Str desc)) = (Py.len s <? 8).
Proof.
  intros s. destruct (cv_results strings desc) as (I & S & D).
  fold s in I, S, D. rewrite I, S, D.
  repeat split;
    match goal with
    | |- context [?a <? ?k] => destruct (a <? k); reflexivity
    | _ => reflexivity
    end.
Qed.

(** C10.  On arguments that are long enough, CVI, CVS and CVD depend only
    on the first 2, 4 and 8 bytes: two strings that agree on that prefix
    give the same value, whatever follows the prefix. *)
Theorem cv_depends_on_prefix_only (strings : StringSpace) (c : conversion)
    (d1 d2 : string) :
  conversion_size c <= Py.len (copy strings d1) ->
  conversion_size c <= Py.len (copy strings d2) ->
  Py.slice_to (copy strings d1) (conversion_size c) =
    Py.slice_to (copy strings d2) (conversion_size c) ->
  convert strings c (Str d1) = convert strings c (Str d2)
  /\ exists v, convert strings c (Str d1) = Ok v
               /\ to_bytes v = Py.slice_to (copy strings d1) (conversion_size c).
Proof.
  intros H1 H2 Heq.
  pose proof (cv_results strings d1) as R1.
  pose proof (cv_results strings d2) as R2.
  cbv zeta in R1, R2.
  destruct R1 as (I1 & S1 & D1), R2 as (I2 & S2 & D2).
  unfold Py.slice_to, Py.bound in *.
  destruct c; cbn [conversion_size convert Z.ltb Z.compare] in *.
  - rewrite I1, I2.
    destruct (Z.ltb_spec (Py.len (copy strings d1)) 2); [lia|].
    destruct (Z.ltb_spec (Py.len (copy strings d2)) 2); [lia|].
    change (Z.to_nat 2) with 2%nat in Heq. rewrite Heq. split; eauto.
  - rewrite S1, S2.
    destruct (Z.ltb_spec (Py.len (copy strings d1)) 4); [lia|].
    destruct (Z.ltb_spec (Py.len (copy strings d2)) 4); [lia|].
    change (Z.to_nat 4) with 4%nat in Heq. rewrite Heq. split; eauto.
  - rewrite D1, D2.
    destruct (Z.ltb_spec (Py.len (copy strings d1)) 8); [lia|].
    destruct (Z.ltb_spec (Py.len (copy strings d2)) 8); [lia|].
    change (Z.to_nat 8) with 8%nat in Heq. rewrite Heq. split; eauto.
Qed.

(** "ABXY" and "ABZZ" in one string space: CVI reads "AB" from both. *)
Lemma cv_depends_on_prefix_only_witness :
  let space := Mbf.string_space "ABXYABZZ" in
  let d1 := Mbf.descriptor 4 0 in
  let d2 := Mbf.descriptor 4 4 in
  copy space d1 = "ABXY" /\ copy space d2 = "ABZZ"
  /\ convert space CVI (Str d1) = convert space CVI (Str d2)
  /\ exists v, convert space CVI (Str d1) = Ok v
               /\ to_bytes v = Py.slice_to (copy space d1) (conversion_size CVI).
Proof.
  intros space d1 d2.
  split; [reflexivity | split; [reflexivity |]].
  apply (cv_depends_on_prefix_only space CVI d1 d2).
  - vm_compute. congruence.
  - vm_compute. congruence.
  - reflexivity.
Defined.

(** ** INSTR *)

(** C9.  INSTR with the empty string as the substring to find, in a
    non-empty string of at most 255 bytes and from a start position within
    it, returns the start position as an Integer. *)
Theorem instr_empty_substring (strings : StringSpace) (big small : string)
    (start : Z) :
  copy strings big <> "" ->
  copy strings small = "" ->
  Py.len (copy strings big) <= 255 ->
  1 <= start <= Py.len (copy strings big) ->
  Values.instr strings (Str big) (Str small) start =
    Ok (Integer (IntegerOps.le_encode 2 start))
  /\ IntegerOps.to_int (IntegerOps.le_encode 2 start) false = start.
Proof.
  intros Hbig Hsmall Hlen Hstart.
  assert (Hmod : start mod 65536 = start) by (apply Z.mod_small; lia).
  split.
  - unfold Values.instr, Values.copy_string, pass_string.
    cbn [sigil bind]. rewrite Hsmall.
    apply String.eqb_neq in Hbig. rewrite Hbig. cbn [orb].
    destruct (Z.gtb_spec start (Py.len (copy strings big))); [lia|].
    rewrite find_empty_sub. cbn [Z.eqb].
    unfold IntegerOps.from_int.
    replace (start + 0) with start by lia.
    destruct (Z.leb_spec (-32768) start); [|lia].
    destruct (Z.leb_spec start 32767); [|lia].
    cbn [andb]. now rewrite Hmod.
  - rewrite <- Hmod at 1. apply to_int_signed_encode. lia.
Qed.

(** INSTR(2, "ABC", "") is 2. *)
Lemma instr_empty_substring_witness :
  let space := Mbf.string_space "ABC" in
  copy space (Mbf.descriptor 3 0) = "ABC"
  /\ copy space (Mbf.descriptor 0 0) = ""
  /\ Values.instr space (Str (Mbf.descriptor 3 0)) (Str (Mbf.descriptor 0 0)) 2
     = Ok (Integer (IntegerOps.le_encode 2 2))
  /\ IntegerOps.to_int (IntegerOps.le_encode 2 2) false = 2.
Proof.
  intros space.
  split; [reflexivity | split; [reflexivity |]].
  apply (instr_empty_substring space (Mbf.descriptor 3 0) (Mbf.descriptor 0 0) 2).
  - vm_compute. congruence.
  - reflexivity.
  - vm_compute. congruence.
  - vm_compute. split; congruence.
Defined.

(** ** PRINT USING *)

(** C6.  [format_number] fails with Illegal Function Call whenever
    [digits_before + decimals] exceeds 24, whatever the value and the
    token string, and returns no string. *)
Theorem format_number_too_many_digits (numbers : Numbers) (value : Float)
    (tokens : string) (digits_before decimals : Z) :
  digits_before + decimals > 24 ->
  format_number numbers value tokens digits_before decimals
    = Raise (RunError IFC).
Proof.
  intros H. unfold format_number.
  destruct (Z.gtb_spec (digits_before + decimals) 24); [reflexivity | lia].
Qed.

Lemma format_number_too_many_digits_witness :
  20 + 5 > 24
  /\ format_number Mbf.numbers single_12345_678 "####################.#####"
       20 5 = Raise (RunError IFC).
Proof.
  split; [reflexivity |].
  apply format_number_too_many_digits. reflexivity.
Defined.

(** ** Bitwise operators *)

Lemma testbit_above_16 (z n : Z) :
  0 <= z < 65536 -> 16 <= n -> Z.testbit z n = false.
Proof.
  intros Hz Hn.
  destruct (Z.eq_dec z 0) as [-> | Hnz]; [apply Z.bits_0 |].
  apply Z.bits_above_log2; [lia |].
  assert (Z.log2 z < 16) by (apply Z.log2_lt_pow2; lia). lia.
Qed.

Lemma testbit_ffff (n : Z) : 0 <= n -> Z.testbit 65535 n = (n <? 16).
Proof.
  intros Hn. change 65535 with (Z.ones 16).
  destruct (Z.ltb_spec n 16).
  - apply Z.ones_spec_low. lia.
  - apply Z.ones_spec_high. lia.
Qed.

Lemma ffff_minus_is_xor (z : Z) :
  0 <= z < 65536 -> 65535 - z = Z.lxor 65535 z.
Proof.
  intros Hz.
  assert (Hdisj : Z.land z (Z.lxor 65535 z) = 0).
  { apply Z.bits_inj'. intros n Hn.
    rewrite Z.land_spec, Z.lxor_spec, Z.bits_0, testbit_ffff by exact Hn.
    destruct (Z.ltb_spec n 16).
    - destruct (Z.testbit z n); reflexivity.
    - rewrite testbit_above_16 by lia. reflexivity. }
  apply Z.add_nocarry_lxor in Hdisj.
  rewrite (Z.lxor_comm 65535 z) in Hdisj at 2.
  rewrite <- Z.lxor_assoc, Z.lxor_nilpotent, Z.lxor_0_l in Hdisj.
  lia.
Qed.

Lemma lxor_16_range (a b : Z) :
  0 <= a < 65536 -> 0 <= b < 65536 -> 0 <= Z.lxor a b < 65536.
Proof.
  intros Ha Hb.
  assert (Hnn : 0 <= Z.lxor a b) by (apply Z.lxor_nonneg; lia).
  split; [exact Hnn |].
  destruct (Z.eq_dec (Z.lxor a b) 0) as [-> | Hnz]; [lia |].
  change 65536 with (2 ^ 16). apply Z.log2_lt_pow2; [lia |].
  destruct (Z.ltb_spec (Z.log2 (Z.lxor a b)) 16) as [Hlt | Hge]; [exact Hlt |].
  exfalso.
  pose proof (Z.bit_log2 (Z.lxor a b) ltac:(lia)) as Hbit.
  rewrite Z.lxor_spec, !testbit_above_16 in Hbit by lia.
  discriminate.
Qed.

Lemma from_int_unsigned (v : Z) :
  0 <= v < 65536 ->
  IntegerOps.from_int v true = Ok (Integer (IntegerOps.le_encode 2 v)).
Proof.
  intros Hv. unfold IntegerOps.from_int.
  destruct (Z.leb_spec 0 v); [| lia].
  destruct (Z.leb_spec v 65535); [| lia].
  cbn [andb]. now rewrite Z.mod_small by lia.
Qed.

(** The unsigned view of a well-sized operand is a 16-bit number. *)
Lemma unsigned_view_range (numbers : Numbers) (x : value) (u : Z) :
  well_sized x = true ->
  Values.unsigned_view numbers x = Ok u ->
  0 <= u < 65536.
Proof.
  unfold Values.unsigned_view, well_sized. intros Hsize Hview.
  destruct x as [buf | f | desc];
    cbn [Values.method_to_integer Values.method_to_int bind] in Hview;
    try discriminate.
  - injection Hview as <-. cbn [to_bytes sigil TYPE_TO_SIZE] in Hsize.
    apply Z.eqb_eq in Hsize.
    unfold IntegerOps.to_int. apply le_decode_2_range.
    unfold Py.len in Hsize. lia.
  - unfold IntegerOps.from_int in Hview.
    destruct ((-32768 <=? float_round numbers f)
              && (float_round numbers f <=? 32767)); [| discriminate].
    change (Ok (IntegerOps.to_int
                  (IntegerOps.le_encode 2 (float_round numbers f mod 65536))
                  true) = Ok u) in Hview.
    unfold IntegerOps.to_int in Hview. rewrite le_decode_encode_2 in Hview.
    injection Hview as <-. apply Z.mod_pos_bound. lia.
Qed.

(** An Integer operand always has an unsigned view: its stored bits. *)
Lemma unsigned_view_integer (numbers : Numbers) (buf : string) :
  Values.unsigned_view numbers (Integer buf) = Ok (IntegerOps.le_decode buf).
Proof. reflexivity. Qed.

(** C4.  On two numeric operands that convert to Integer, with unsigned
    16-bit views [ux] and [uy], [bitwise_eqv] returns the Integer whose
    unsigned 16-bit value is 0xFFFF XOR (ux XOR uy). *)
Theorem bitwise_eqv_is_ffff_xor (numbers : Numbers) (x y : value) (ux uy : Z) :
  well_sized x = true ->
  well_sized y = true ->
  Values.unsigned_view numbers x = Ok ux ->
  Values.unsigned_view numbers y = Ok uy ->
  exists buf,
    Values.bitwise_eqv numbers x y = Ok (Integer buf)
    /\ String.length buf = 2%nat
    /\ IntegerOps.to_int buf true = Z.lxor 0xFFFF (Z.lxor ux uy).
Proof.
  intros Sx Sy Vx Vy.
  pose proof (unsigned_view_range numbers x ux Sx Vx) as Rx.
  pose proof (unsigned_view_range numbers y uy Sy Vy) as Ry.
  pose proof (lxor_16_range ux uy Rx Ry) as Rxor.
  exists (IntegerOps.le_encode 2 (Z.lxor 65535 (Z.lxor ux uy))).
  rewrite <- ffff_minus_is_xor by exact Rxor.
  split; [| split].
  - unfold Values.bitwise_eqv. rewrite Vx, Vy. cbn [bind].
    apply from_int_unsigned. lia.
  - reflexivity.
  - apply to_int_unsigned_encode. lia.
Qed.

(** 5 EQV 3.0: an Integer and a Single operand. *)
Lemma bitwise_eqv_is_ffff_xor_witness :
  let x := Integer (IntegerOps.le_encode 2 5) in
  let y := Num (FloatOps.from_integer (IntegerOps.le_encode 2 3)) in
  exists buf,
    Values.bitwise_eqv Mbf.numbers x y = Ok (Integer buf)
    /\ String.length buf = 2%nat
    /\ IntegerOps.to_int buf true = Z.lxor 0xFFFF (Z.lxor 5 3).
Proof.
  intros x y.
  apply (bitwise_eqv_is_ffff_xor Mbf.numbers x y 5 3); reflexivity.
Defined.

(** ** Negation *)

(** Induction over a buffer that follows the cases of [on_sign_byte]. *)
Lemma buffer_ind (P : string -> Prop) :
  P "" ->
  (forall c, P (String c "")) ->
  (forall m e, P (String m (String e ""))) ->
  (forall c e x r, P (String e (String x r)) ->
                   P (String c (String e (String x r)))) ->
  forall buf, P buf.
Proof.
  intros H0 H1 H2 H3. induction buf as [| c rest IH]; [exact H0 |].
  destruct rest as [| e [| x r]]; auto.
Qed.

Lemma on_sign_byte_step (g : ascii -> ascii) (c e x : ascii) (r : string) :
  FloatOps.on_sign_byte g (String c (String e (String x r)))
  = String c (FloatOps.on_sign_byte g (String e (String x r))).
Proof. reflexivity. Qed.

(** A buffer of two or more bytes keeps that shape. *)
Lemma on_sign_byte_shape (g : ascii -> ascii) (e x : ascii) (r : string) :
  exists e' x' r',
    FloatOps.on_sign_byte g (String e (String x r)) = String e' (String x' r').
Proof.
  destruct r as [| y r]; [cbn; eauto |].
  rewrite on_sign_byte_step.
  destruct r as [| z r]; [cbn; eauto |].
  rewrite on_sign_byte_step. eauto.
Qed.

Lemma exp_byte_on_sign_byte (g : ascii -> ascii) (buf : string) :
  FloatOps.exp_byte (FloatOps.on_sign_byte g buf) = FloatOps.exp_byte buf.
Proof.
  induction buf as [| c | m e | c e x r IH] using buffer_ind;
    try reflexivity.
  rewrite on_sign_byte_step.
  destruct (on_sign_byte_shape g e x r) as (e' & x' & r' & E).
  rewrite E in *. exact IH.
Qed.

Lemma on_sign_byte_twice (g h : ascii -> ascii) (buf : string) :
  FloatOps.on_sign_byte g (FloatOps.on_sign_byte h buf)
  = FloatOps.on_sign_byte (fun c => g (h c)) buf.
Proof.
  induction buf as [| c | m e | c e x r IH] using buffer_ind;
    try reflexivity.
  rewrite !on_sign_byte_step.
  destruct (on_sign_byte_shape h e x r) as (e' & x' & r' & E).
  rewrite E in *. rewrite on_sign_byte_step. now rewrite IH.
Qed.

Lemma on_sign_byte_id (g : ascii -> ascii) (buf : string) :
  (forall c, g c = c) -> FloatOps.on_sign_byte g buf = buf.
Proof.
  intros Hg.
  induction buf as [| c | m e | c e x r IH] using buffer_ind;
    try reflexivity.
  - cbn. now rewrite Hg.
  - rewrite on_sign_byte_step. now rewrite IH.
Qed.

Lemma flip_msb_twice (c : ascii) : FloatOps.flip_msb (FloatOps.flip_msb c) = c.
Proof. destruct c as [? ? ? ? ? ? ? []]; reflexivity. Qed.

(** Negating a float twice gives back the same bytes. *)
Lemma ineg_twice (f : Float) : FloatOps.ineg (FloatOps.ineg f) = f.
Proof.
  destruct f as [cls buf]. unfold FloatOps.ineg.
  destruct (FloatOps.is_zero (mkFloat cls buf)) eqn:Z; [now rewrite Z |].
  unfold FloatOps.is_zero in *. cbn [fbuf fclass] in *.
  rewrite exp_byte_on_sign_byte, Z.
  rewrite on_sign_byte_twice, on_sign_byte_id; [reflexivity |].
  apply flip_msb_twice.
Qed.

Lemma in_z_range (n lo : Z) (count : nat) :
  lo <= n < lo + Z.of_nat count -> In n (z_range lo count).
Proof.
  revert lo. induction count as [| count IH]; intros lo H; [lia |].
  cbn [z_range]. destruct (Z.eq_dec lo n) as [-> | Hne].
  - now left.
  - right. apply IH. lia.
Qed.

Lemma msb_chr_all :
  forallb (fun x => Bool.eqb (FloatOps.msb (Py.chr x)) (128 <=? x))
    (z_range 0 256) = true.
Proof. reflexivity. Qed.

(** The sign bit of a byte is set from 128 on. *)
Lemma msb_chr (x : Z) :
  0 <= x < 256 -> FloatOps.msb (Py.chr x) = (128 <=? x).
Proof.
  intros Hx.
  pose proof (proj1 (forallb_forall _ _) msb_chr_all x
                (in_z_range x 0 256 ltac:(lia))) as H.
  now apply Bool.eqb_prop in H.
Qed.

Lemma chr_nonzero (x : Z) : 0 < x < 256 -> Ascii.eqb (Py.chr x) zero = false.
Proof.
  intros Hx. destruct (Ascii.eqb_spec (Py.chr x) zero) as [E |]; [| reflexivity].
  apply (f_equal Py.ord) in E. rewrite ord_chr in E by lia.
  change (Py.ord zero) with 0 in E. lia.
Qed.

(** The mantissa of [n] shifted to 24 bits has its leading 1 at bit 23. *)
Lemma shifted_mantissa_range (a : Z) :
  0 < a < 2 ^ 24 ->
  2 ^ 23 <= a * 2 ^ (23 - Z.log2 a) < 2 ^ 24.
Proof.
  intros [Ha Hb].
  pose proof (Z.log2_spec a Ha) as [Hlo Hhi].
  pose proof (Z.log2_nonneg a) as Hk.
  destruct (Z.leb_spec (Z.log2 a) 23) as [Hle | Hgt].
  - assert (Hp : 0 < 2 ^ (23 - Z.log2 a)) by (apply Z.pow_pos_nonneg; lia).
    assert (E1 : 2 ^ Z.log2 a * 2 ^ (23 - Z.log2 a) = 2 ^ 23).
    { rewrite <- Z.pow_add_r by lia. f_equal. lia. }
    assert (E2 : 2 ^ Z.succ (Z.log2 a) * 2 ^ (23 - Z.log2 a) = 2 ^ 24).
    { rewrite <- Z.pow_add_r by lia. f_equal. lia. }
    split.
    + rewrite <- E1. apply Z.mul_le_mono_nonneg_r; lia.
    + rewrite <- E2. apply Z.mul_lt_mono_pos_r; lia.
  - exfalso. revert Hgt Hlo Hhi. generalize (Z.log2 a). intros k Hgt Hlo Hhi.
    assert (2 ^ 24 <= 2 ^ k) by (apply Z.pow_le_mono_r; lia).
    lia.
Qed.

(** [Single.from_integer] is exact on the whole Integer range. *)
Lemma from_integer_exact (n : Z) :
  -32768 <= n <= 32767 ->
  Mbf.exact_int (mkFloat SingleClass (FloatOps.single_from_int n)) = Some n.
Proof.
  intros Hn. unfold FloatOps.single_from_int.
  destruct (Z.eqb_spec n 0) as [-> | Hnz]; [reflexivity |].
  set (a := Z.abs n). set (k := Z.log2 a).
  assert (Ha : 0 < a <= 32768) by (subst a; lia).
  assert (Hk : 0 <= k <= 15).
  { subst k. split; [apply Z.log2_nonneg |].
    apply Z.lt_succ_r. apply Z.log2_lt_pow2; lia. }
  pose proof (shifted_mantissa_range a ltac:(lia)) as Hm. fold k in Hm.
  rewrite Z.shiftl_mul_pow2 by lia.
  set (P := 2 ^ (23 - k)) in *.
  assert (HP : 0 < P) by (subst P; apply Z.pow_pos_nonneg; lia).
  set (m := a * P - 2 ^ 23).
  assert (Hm' : 0 <= m < 8388608) by (subst m; lia).
  set (s := if n <? 0 then 128 else 0).
  assert (Hs : s = 0 \/ s = 128) by (subst s; destruct (n <? 0); auto).
  assert (H0 : 0 <= m mod 256 < 256) by (apply Z.mod_pos_bound; lia).
  assert (H1 : 0 <= (m / 256) mod 256 < 256) by (apply Z.mod_pos_bound; lia).
  assert (H2 : 0 <= m / 65536 < 128)
    by (split; [apply Z.div_pos; lia | apply Z.div_lt_upper_bound; lia]).
  unfold Mbf.exact_int, Mbf.numerator, Mbf.denominator, Mbf.is_zero,
    Mbf.negative, Mbf.mantissa, Mbf.payload, Mbf.exp2, Mbf.mant_bits.
  cbn [fbuf FloatOps.exp_byte FloatOps.sign_byte IntegerOps.le_decode].
  change (Py.len (String _ (String _ (String _ (String _ ""))))) with 4.
  rewrite !ord_chr by lia. rewrite msb_chr by lia.
  rewrite chr_nonzero by lia.
  change (8 * (4 - 1)) with 24. change (24 - 1) with 23.
  replace (129 + k - 128 - 24) with (k - 23) by lia.
  rewrite Z.max_l by lia. replace (- (k - 23)) with (23 - k) by lia.
  rewrite (Z.max_r 0 (23 - k)) by lia. fold P.
  change (2 ^ 0) with 1. rewrite Z.mul_1_r.
  assert (EM : (m mod 256 + 256 * ((m / 256) mod 256
                 + 256 * (m / 65536 + s + 256 * (129 + k + 256 * 0)))) mod 2 ^ 24
               mod 2 ^ 23 + 2 ^ 23 = a * P).
  { change (2 ^ 24) with 16777216. change (2 ^ 23) with 8388608 in *.
    subst m. Z.div_mod_to_equations. lia. }
  rewrite EM, Z.mod_mul, Z.div_mul by lia. cbn [Z.eqb].
  f_equal. subst s a.
  destruct (Z.ltb_spec n 0);
    destruct (Z.leb_spec 128 (m / 65536 + 128));
    destruct (Z.leb_spec 128 (m / 65536 + 0)); lia.
Qed.

Lemma to_int_signed_range (buf : string) :
  String.length buf = 2%nat ->
  -32768 <= IntegerOps.to_int buf false <= 32767.
Proof.
  intros H. pose proof (le_decode_2_range buf H).
  unfold IntegerOps.to_int.
  destruct (Z.leb_spec 32768 (IntegerOps.le_decode buf)); lia.
Qed.

Lemma negate_float (numbers : Numbers) (f : Float) :
  Values.negate numbers (Num f) = Ok (Num (FloatOps.ineg f)).
Proof.
  destruct f as [[] buf]; reflexivity.
Qed.

Lemma negate_integer (numbers : Numbers) (buf : string) :
  Values.negate numbers (Integer buf)
  = Ok (Num (FloatOps.ineg (FloatOps.from_integer buf))).
Proof. reflexivity. Qed.

Lemma to_float_float (numbers : Numbers) (f : Float) :
  Values.to_float numbers (Num f) true = Ok (Num f).
Proof.
  destruct f as [[] buf]; reflexivity.
Qed.

Lemma to_most_precise_same (numbers : Numbers) (f : Float) :
  Values.to_most_precise numbers (Num f) (Num f) = Ok (Num f, Num f).
Proof.
  destruct f as [[] buf]; reflexivity.
Qed.

(** C3, as the code has it.  For every numeric [x], [negate(negate(x))] is
    [x] as [to_float] promotes it, and it is equal to [x] after promotion
    to a common type.  For a Single or a Double that is [x] itself, bit for
    bit.  Every Integer, not only -32768, is promoted: the result is the
    Single that holds the value of [x]. *)
Theorem negate_twice_is_promoted (numbers : Numbers) (x : value) :
  is_numeric x = true ->
  well_sized x = true ->
  exists r,
    negate_twice numbers x = Ok (Num r)
    /\ Values.to_float numbers x true = Ok (Num r)
    /\ Values.to_most_precise numbers (Num r) x = Ok (Num r, Num r)
    /\ match x with
       | Integer buf =>
           fclass r = SingleClass
           /\ Mbf.exact_int r = Some (IntegerOps.to_int buf false)
       | _ => x = Num r
       end.
Proof.
  intros Hnum Hsize. destruct x as [buf | f | desc]; [| | discriminate].
  - exists (FloatOps.from_integer buf).
    unfold negate_twice. rewrite negate_integer. cbn [bind].
    rewrite negate_float, ineg_twice.
    repeat split.
    unfold FloatOps.from_integer. apply from_integer_exact.
    apply to_int_signed_range.
    unfold well_sized in Hsize. cbn [to_bytes sigil TYPE_TO_SIZE] in Hsize.
    apply Z.eqb_eq in Hsize. unfold Py.len in Hsize. lia.
  - exists f.
    unfold negate_twice. rewrite negate_float. cbn [bind].
    rewrite negate_float, ineg_twice, to_float_float, to_most_precise_same.
    repeat split.
Qed.

(** Integer -32768. *)
Lemma negate_twice_is_promoted_witness :
  exists r,
    negate_twice Mbf.numbers (integer_of (-32768)) = Ok (Num r)
    /\ Values.to_float Mbf.numbers (integer_of (-32768)) true = Ok (Num r)
    /\ Values.to_most_precise Mbf.numbers (Num r) (integer_of (-32768))
       = Ok (Num r, Num r)
    /\ fclass r = SingleClass
    /\ Mbf.exact_int r
       = Some (IntegerOps.to_int (IntegerOps.le_encode 2 (-32768 mod 65536)) false).
Proof.
  apply (negate_twice_is_promoted Mbf.numbers (integer_of (-32768)));
    reflexivity.
Defined.

(** C3 fails as stated.  Twice negated, Integer -32768 is Single -32768,
    not Single 32768 (which is the value negated once); and Integer 5 comes
    back as a Single, not as the Integer it was. *)
Lemma negate_twice_counterexample :
  negate_twice Mbf.numbers (integer_of (-32768)) = Ok single_minus_32768
  /\ negate_twice Mbf.numbers (integer_of (-32768)) <> Ok single_32768
  /\ Values.negate Mbf.numbers (integer_of (-32768)) = Ok single_32768
  /\ negate_twice Mbf.numbers (integer_of 5)
     = Ok (Single (IntegerOps.le_encode 4 0x83200000))
  /\ negate_twice Mbf.numbers (integer_of 5) <> Ok (integer_of 5).
Proof.
  repeat split; try reflexivity; vm_compute; discriminate.
Qed.

(** ** String comparison *)

Lemma ord_inj (x y : ascii) : Py.ord x = Py.ord y -> x = y.
Proof.
  unfold Py.ord. intros H.
  rewrite <- (ascii_N_embedding x), <- (ascii_N_embedding y).
  f_equal. lia.
Qed.

Lemma lex_less_cons (c : ascii) (a b : string) :
  lex_less a b -> lex_less (String c a) (String c b).
Proof.
  intros [p d s | p x y a' b' Hxy].
  - apply (lex_shorter (String c p) d s).
  - apply (lex_byte (String c p) x y a' b' Hxy).
Qed.

(** [lex_lt] decides [lex_less]. *)
Lemma lex_lt_iff (a b : string) : lex_lt a b = true <-> lex_less a b.
Proof.
  split.
  - revert b. induction a as [| x a IH]; intros [| y b] H; cbn in H;
      try discriminate.
    + apply (lex_shorter "" y b).
    + destruct (Z.ltb_spec (Py.ord x) (Py.ord y)) as [Hlt | Hge].
      * apply (lex_byte "" x y a b Hlt).
      * destruct (Z.ltb_spec (Py.ord y) (Py.ord x)); [discriminate |].
        assert (x = y) as -> by (apply ord_inj; lia).
        apply lex_less_cons. now apply IH.
  - intros [p c s | p x y a' b' Hxy].
    + induction p as [| d p IH]; cbn; [reflexivity |].
      rewrite Z.ltb_irrefl. exact IH.
    + induction p as [| d p IH]; cbn.
      * destruct (Z.ltb_spec (Py.ord x) (Py.ord y)); [reflexivity | lia].
      * rewrite Z.ltb_irrefl. exact IH.
Qed.

Lemma gt_scan_shift (x y : ascii) (l r : string) (n k : nat) :
  Values.gt_scan (String x l) (String y r) (seq (S k) n)
  = Values.gt_scan l r (seq k n).
Proof.
  revert k. induction n as [| n IH]; intros k; [reflexivity |].
  cbn [seq Values.gt_scan].
  change (Values.byte_at (String x l) (S k)) with (Values.byte_at l k).
  change (Values.byte_at (String y r) (S k)) with (Values.byte_at r k).
  now rewrite IH.
Qed.

(** The loop of [bool_gt] computes the lexicographic order: [left > right]
    is [right < left]. *)
Lemma string_gt_lex (left right : string) :
  Values.string_gt left right = lex_lt right left.
Proof.
  revert right. induction left as [| x l IH]; intros [| y r].
  - reflexivity.
  - unfold Values.string_gt. cbn [String.length Nat.min seq Values.gt_scan].
    cbn [lex_lt]. pose proof (len_nonneg (String y r)).
    unfold Py.len at 1. cbn [String.length Z.of_nat].
    destruct (Z.gtb_spec 0 (Py.len (String y r))); [lia | reflexivity].
  - unfold Values.string_gt. cbn [String.length Nat.min seq Values.gt_scan].
    cbn [lex_lt]. pose proof (len_nonneg l).
    rewrite len_cons. unfold Py.len at 2. cbn [String.length Z.of_nat].
    destruct (Z.gtb_spec (Py.len l + 1) 0); [reflexivity | lia].
  - specialize (IH r). unfold Values.string_gt in *.
    cbn [String.length Nat.min seq Values.gt_scan lex_lt].
    change (Values.byte_at (String x l) 0) with (Py.ord x).
    change (Values.byte_at (String y r) 0) with (Py.ord y).
    rewrite Z.gtb_ltb.
    destruct (Z.ltb_spec (Py.ord y) (Py.ord x)) as [Hyx | Hge].
    + reflexivity.
    + destruct (Z.ltb_spec (Py.ord x) (Py.ord y)) as [Hxy | Hge'].
      * reflexivity.
      * rewrite gt_scan_shift, <- IH.
        rewrite !len_cons.
        replace (Py.len l + 1 >? Py.len r + 1) with (Py.len l >? Py.len r)
          by (rewrite !Z.gtb_ltb;
              destruct (Z.ltb_spec (Py.len r) (Py.len l)),
                       (Z.ltb_spec (Py.len r + 1) (Py.len l + 1)); lia).
        reflexivity.
Qed.

Lemma bool_gt_strings (numbers : Numbers) (strings : StringSpace)
    (dl dr : string) :
  Values.bool_gt numbers strings (Str dl) (Str dr)
  = Ok (lex_lt (copy strings dr) (copy strings dl)).
Proof.
  unfold Values.bool_gt, Values.copy_string, pass_string. cbn [sigil bind].
  now rewrite string_gt_lex.
Qed.

Lemma from_bool_value (b : bool) :
  Values.from_bool b = Ok (integer_of (if b then -1 else 0)).
Proof. destruct b; reflexivity. Qed.

(** C5.  The comparisons of two strings follow the lexicographic order of
    their bytes, where a proper prefix is less than the longer string, and
    return Integer -1 for true and Integer 0 for false; "AB" < "ABC" is
    true. *)
Theorem string_comparisons_lexicographic (numbers : Numbers)
    (strings : StringSpace) (dl dr : string) :
  let l := copy strings dl in
  let r := copy strings dr in
  let truth (b : bool) := Ok (integer_of (if b then -1 else 0)) in
  Values.lt numbers strings (Str dl) (Str dr) = truth (lex_lt l r)
  /\ Values.gt numbers strings (Str dl) (Str dr) = truth (lex_lt r l)
  /\ Values.lte numbers strings (Str dl) (Str dr) = truth (negb (lex_lt r l))
  /\ Values.gte numbers strings (Str dl) (Str dr) = truth (negb (lex_lt l r))
  /\ Values.equals numbers strings (Str dl) (Str dr) = truth (String.eqb l r)
  /\ Values.not_equals numbers strings (Str dl) (Str dr)
     = truth (negb (String.eqb l r))
  /\ (lex_lt l r = true <-> lex_less l r)
  /\ (forall c s, r = l ++ String c s ->
        Values.lt numbers strings (Str dl) (Str dr) = truth true)
  /\ (l = "AB" -> r = "ABC" ->
        Values.lt numbers strings (Str dl) (Str dr) = truth true)
  /\ IntegerOps.to_int (to_bytes (integer_of (-1))) false = -1
  /\ IntegerOps.to_int (to_bytes (integer_of 0)) false = 0.
Proof.
  intros l r truth.
  assert (Hlt : Values.lt numbers strings (Str dl) (Str dr) = truth (lex_lt l r)).
  { unfold Values.lt. rewrite bool_gt_strings. cbn [bind].
    apply from_bool_value. }
  repeat match goal with |- _ /\ _ => split end.
  - exact Hlt.
  - unfold Values.gt. rewrite bool_gt_strings. apply from_bool_value.
  - unfold Values.lte. rewrite bool_gt_strings. apply from_bool_value.
  - unfold Values.gte. rewrite bool_gt_strings. apply from_bool_value.
  - unfold Values.equals, Values._bool_eq, Values.copy_string, pass_string.
    apply from_bool_value.
  - unfold Values.not_equals, Values._bool_eq, Values.copy_string, pass_string.
    apply from_bool_value.
  - apply lex_lt_iff.
  - intros c s Hr. rewrite Hlt. f_equal. f_equal.
    replace (lex_lt l r) with true; [reflexivity |].
    symmetry. apply lex_lt_iff. rewrite Hr. apply lex_shorter.
  - intros Hl Hr. rewrite Hlt, Hl, Hr. reflexivity.
  - reflexivity.
  - reflexivity.
Qed.

(** "AB" < "ABC", with both strings in one string space. *)
Lemma string_comparisons_lexicographic_witness :
  let space := Mbf.string_space "ABABC" in
  copy space (Mbf.descriptor 2 0) = "AB"
  /\ copy space (Mbf.descriptor 3 2) = "ABC"
  /\ Values.lt Mbf.numbers space (Str (Mbf.descriptor 2 0))
       (Str (Mbf.descriptor 3 2)) = Ok (integer_of (-1)).
Proof.
  intros space.
  split; [reflexivity | split; [reflexivity |]].
  apply (string_comparisons_lexicographic Mbf.numbers space
           (Mbf.descriptor 2 0) (Mbf.descriptor 3 2)); reflexivity.
Defined.

(** ** PRINT USING in scientific format *)

Lemma all_chars_app (p : ascii -> bool) (s t : string) :
  all_chars p (s ++ t) = all_chars p s && all_chars p t.
Proof.
  induction s as [| c s IH]; cbn; [reflexivity |].
  now rewrite IH, andb_assoc.
Qed.

Lemma all_chars_mul (p : ascii -> bool) (c : ascii) (n : Z) :
  p c = true -> all_chars p (Py.mul c n) = true.
Proof.
  intros Hc. unfold Py.mul.
  induction (Z.to_nat n) as [| k IH]; cbn; [reflexivity |].
  now rewrite Hc, IH.
Qed.

Lemma is_zero_iabs (f : Float) :
  FloatOps.is_zero (FloatOps.iabs f) = FloatOps.is_zero f.
Proof.
  unfold FloatOps.is_zero, FloatOps.iabs. cbn [fbuf].
  now rewrite exp_byte_on_sign_byte.
Qed.

(** A zero without a forced dot is formatted without looking at the
    number of digits. *)
Lemma format_zero_scientific (numbers : Numbers) (f : Float)
    (digits_before decimals : Z) :
  FloatOps.is_zero f = true ->
  _format_float_scientific numbers (FloatOps.iabs f) digits_before decimals
    false = zero_digits f.
Proof.
  intros Hz. unfold _format_float_scientific.
  rewrite is_zero_iabs, Hz. cbn [negb].
  unfold FloatOps.exp_sign, zero_digits, FloatOps.iabs. cbn [fclass].
  destruct (fclass f); reflexivity.
Qed.

Lemma get_in_range (s : string) (n : nat) :
  (n < String.length s)%nat -> exists c, String.get n s = Some c.
Proof.
  revert n. induction s as [| c s IH]; intros n Hn; cbn in Hn; [lia |].
  destruct n as [| n]; cbn; [eauto |]. apply IH. lia.
Qed.

Lemma index_in_range (s : string) (i : Z) :
  s <> "" -> i = 0 \/ i = -1 -> exists c, Py.index s i = Ok c.
Proof.
  intros Hs Hi. unfold Py.index.
  assert (Hlen : 0 < Py.len s).
  { destruct s; [congruence |]. rewrite len_cons.
    pose proof (len_nonneg s). lia. }
  set (j := if i <? 0 then Py.len s + i else i).
  assert (Hj : 0 <= j < Py.len s).
  { subst j. destruct Hi as [-> | ->]; cbn [Z.ltb Z.compare]; lia. }
  destruct (Z.ltb_spec j 0); [lia |].
  destruct (Z.leb_spec (Py.len s) j); [lia |]. cbn [orb].
  destruct (get_in_range s (Z.to_nat j)) as [c Hc].
  { unfold Py.len in Hj. lia. }
  rewrite Hc. eauto.
Qed.

(** The last step of [format_number] puts fill characters only in front
    of what it is given. *)
Lemma fill_shape (tokens pre digits post : string) :
  all_chars is_fill_char pre = true ->
  all_chars is_fill_char post = true ->
  exists lead trail,
    (let valstr := (pre ++ digits) ++ post in
     if Py.len valstr >? Py.len tokens then Ok ("%" ++ valstr)
     else
       Ok (Py.mul (if Py.contains "*" tokens then "*" else " ")
             (Py.len tokens - Py.len valstr) ++ valstr))
    = Ok (lead ++ digits ++ trail)
    /\ all_chars is_fill_char lead = true
    /\ all_chars is_fill_char trail = true.
Proof.
  intros Hpre Hpost. cbv zeta.
  destruct (_ >? _).
  - exists ("%" ++ pre), post. split; [| split].
    + now rewrite !app_assoc.
    + rewrite all_chars_app, Hpre. reflexivity.
    + exact Hpost.
  - match goal with
    | |- context [Py.mul ?c ?n] => exists (Py.mul c n ++ pre), post
    end.
    split; [| split].
    + now rewrite !app_assoc.
    + rewrite all_chars_app, Hpre, all_chars_mul;
        [reflexivity | destruct (Py.contains _ _); reflexivity].
    + exact Hpost.
Qed.

(** C7.  A zero formatted with a scientific token and no forced decimal
    point has exactly "E+00" (Single) or "0D+00" (Double) as its digits:
    the output is these characters between fillers, signs and the currency
    sign.  PRINT USING "#^^^^" of Single 0 gives " E+00". *)
Theorem format_number_zero_scientific (numbers : Numbers) (f : Float)
    (tokens : string) (digits_before decimals : Z) :
  FloatOps.is_zero f = true ->
  tokens <> "" ->
  Py.contains "^" tokens = true ->
  Py.contains "." tokens = false ->
  digits_before + decimals <= 24 ->
  (exists lead trail,
     format_number numbers f tokens digits_before decimals
       = Ok (lead ++ zero_digits f ++ trail)
     /\ all_chars is_fill_char lead = true
     /\ all_chars is_fill_char trail = true)
  /\ (zero_digits f = if Ascii.eqb (FloatOps.exp_sign f) "E"
                      then "E+00" else "0D+00")
  /\ (f = single_zero -> tokens = "#^^^^" ->
      format_number numbers f tokens digits_before decimals = Ok " E+00").
Proof.
  intros Hz Htok Hsci Hdot Hsum.
  assert (Hshape : exists pre post,
             format_number numbers f tokens digits_before decimals
             = (let valstr := (pre ++ zero_digits f) ++ post in
                if Py.len valstr >? Py.len tokens then Ok ("%" ++ valstr)
                else
                  Ok (Py.mul (if Py.contains "*" tokens then "*" else " ")
                        (Py.len tokens - Py.len valstr) ++ valstr))
             /\ all_chars is_fill_char pre = true
             /\ all_chars is_fill_char post = true
             /\ (f = single_zero -> tokens = "#^^^^" -> pre = "" /\ post = "")).
  { unfold format_number.
    destruct (Z.gtb_spec (digits_before + decimals) 24); [lia |].
    rewrite Hsci, Hdot.
    destruct (index_in_range tokens 0 Htok (or_introl eq_refl)) as [first Hf].
    destruct (index_in_range tokens (-1) Htok (or_intror eq_refl)) as [last Hl].
    rewrite Hf. cbn [bind].
    destruct (Ascii.eqb first "+") eqn:Efirst; cbn [bind].
    { rewrite format_zero_scientific by exact Hz.
      eexists _, _. split; [reflexivity |]. split; [| split].
      - destruct (FloatOps.is_negative f), (Py.contains "$" tokens);
          reflexivity.
      - reflexivity.
      - intros -> ->. vm_compute in Hf. injection Hf as <-. discriminate. }
    rewrite Hl. cbn [bind].
    destruct (Ascii.eqb last "+") eqn:Eplus; cbn [bind].
    { rewrite format_zero_scientific by exact Hz.
      eexists _, _. split; [reflexivity |]. split; [| split].
      - destruct (Py.contains "$" tokens); reflexivity.
      - destruct (FloatOps.is_negative f); reflexivity.
      - intros -> ->. vm_compute in Hl. injection Hl as <-. discriminate. }
    destruct (Ascii.eqb last "-") eqn:Eminus; cbn [bind].
    { rewrite format_zero_scientific by exact Hz.
      eexists _, _. split; [reflexivity |]. split; [| split].
      - destruct (Py.contains "$" tokens); reflexivity.
      - destruct (FloatOps.is_negative f); reflexivity.
      - intros -> ->. vm_compute in Hl. injection Hl as <-. discriminate. }
    rewrite format_zero_scientific by exact Hz.
    eexists _, _. split; [reflexivity |]. split; [| split].
    - destruct (FloatOps.is_negative f), (Py.contains "$" tokens);
        reflexivity.
    - reflexivity.
    - intros -> ->. split; reflexivity. }
  destruct Hshape as (pre & post & Heq & Hpre & Hpost & Hconcrete).
  split; [| split].
  - rewrite Heq. apply fill_shape; assumption.
  - unfold zero_digits, FloatOps.exp_sign. destruct (fclass f); reflexivity.
  - intros Hf Ht. destruct (Hconcrete Hf Ht) as [-> ->].
    rewrite Heq. subst f tokens. reflexivity.
Qed.

(** PRINT USING "#^^^^"; 0 *)
Lemma format_number_zero_scientific_witness :
  FloatOps.is_zero single_zero = true
  /\ format_number Mbf.numbers single_zero "#^^^^" 1 0 = Ok " E+00".
Proof.
  split; [reflexivity |].
  apply (format_number_zero_scientific Mbf.numbers single_zero "#^^^^" 1 0);
    try reflexivity; try discriminate.
Defined.

(** ** Decimal and scientific notation *)

Lemma contains_app (c : ascii) (s t : string) :
  Py.contains c (s ++ t) = Py.contains c s || Py.contains c t.
Proof.
  induction s as [| d s IH]; cbn; [reflexivity |].
  now rewrite IH, orb_assoc.
Qed.

Lemma all_chars_not_contains (p : ascii -> bool) (c : ascii) (s : string) :
  all_chars p s = true -> p c = false -> Py.contains c s = false.
Proof.
  intros Hall Hc. induction s as [| d s IH]; cbn in *; [reflexivity |].
  apply andb_true_iff in Hall as [Hd Hs].
  rewrite (IH Hs), orb_false_r.
  destruct (Ascii.eqb_spec c d) as [-> |]; [congruence | reflexivity].
Qed.

Lemma all_chars_weaken (p q : ascii -> bool) (s : string) :
  (forall c, p c = true -> q c = true) ->
  all_chars p s = true -> all_chars q s = true.
Proof.
  intros Hpq. induction s as [| d s IH]; cbn; [reflexivity |].
  intros H. apply andb_true_iff in H as [Hd Hs].
  now rewrite (Hpq d Hd), (IH Hs).
Qed.

Lemma all_chars_take (p : ascii -> bool) (n : nat) (s : string) :
  all_chars p s = true -> all_chars p (Py.take n s) = true.
Proof.
  revert s. induction n as [| n IH]; intros [| c s] H; cbn in *;
    try reflexivity.
  apply andb_true_iff in H as [Hc Hs]. now rewrite Hc, IH.
Qed.

Lemma all_chars_drop (p : ascii -> bool) (n : nat) (s : string) :
  all_chars p s = true -> all_chars p (Py.drop n s) = true.
Proof.
  revert s. induction n as [| n IH]; intros [| c s] H; cbn in *;
    try reflexivity; try exact H.
  apply andb_true_iff in H as [Hc Hs]. now apply IH.
Qed.

Lemma all_chars_rstrip (p : ascii -> bool) (c : ascii) (s : string) :
  all_chars p s = true -> all_chars p (Py.rstrip c s) = true.
Proof.
  induction s as [| d s IH]; cbn; [reflexivity |].
  intros H. apply andb_true_iff in H as [Hd Hs]. specialize (IH Hs).
  destruct (Py.rstrip c s) as [| e r].
  - destruct (Ascii.eqb d c); cbn; [reflexivity | now rewrite Hd].
  - cbn [all_chars] in *. now rewrite Hd, IH.
Qed.

Lemma all_chars_uint (d : Decimal.uint) :
  all_chars is_digit (NilEmpty.string_of_uint d) = true.
Proof.
  induction d; cbn [NilEmpty.string_of_uint all_chars]; try rewrite IHd;
    reflexivity.
Qed.

Lemma all_chars_str_nat (n : Z) : all_chars is_digit (Py.str_nat n) = true.
Proof. apply all_chars_uint. Qed.

Lemma get_digits_all_digits (num digits : Z) (remove_trailing : bool) :
  all_chars is_digit (_get_digits num digits remove_trailing) = true.
Proof.
  unfold _get_digits.
  assert (H : all_chars is_digit
                (Py.mul "0" (digits - Py.len (Py.str_nat (Z.abs num)))
                 ++ Py.slice_to (Py.str_nat (Z.abs num)) digits) = true).
  { rewrite all_chars_app, all_chars_mul by reflexivity.
    apply all_chars_take, all_chars_str_nat. }
  destruct remove_trailing; [now apply all_chars_rstrip | exact H].
Qed.

Lemma digit_is_decimal_char (c : ascii) :
  is_digit c = true -> is_decimal_char c = true.
Proof.
  unfold is_digit, is_decimal_char. cbn.
  repeat (destruct (Ascii.eqb c _); [reflexivity |]). discriminate.
Qed.

(** Decimal notation is made of digits, a point and a sigil. *)
Lemma decimal_notation_chars (digitstr : string) (exp10 : Z)
    (type_sign : string) (force_dot : bool) :
  all_chars is_digit digitstr = true ->
  all_chars is_decimal_char type_sign = true ->
  all_chars is_decimal_char
    (_decimal_notation digitstr exp10 type_sign force_dot) = true.
Proof.
  intros Hd Hs.
  assert (Hd' : all_chars is_decimal_char digitstr = true)
    by (eapply all_chars_weaken; [apply digit_is_decimal_char | exact Hd]).
  assert (Hz : forall n, all_chars is_decimal_char (Py.mul "0" n) = true)
    by (intros n; now apply all_chars_mul).
  unfold _decimal_notation, Py.slice_to, Py.slice_from.
  repeat match goal with
         | |- context [if ?b then _ else _] => destruct b
         end;
    repeat rewrite all_chars_app;
    repeat rewrite Hz; repeat rewrite Hd'; repeat rewrite Hs;
    repeat rewrite all_chars_take by exact Hd';
    repeat rewrite all_chars_drop by exact Hd';
    reflexivity.
Qed.

(** Scientific notation always has the exponent letter. *)
Lemma scientific_notation_has_letter (digitstr : string) (exp10 : Z)
    (exp_sign : ascii) (digits_to_dot : Z) (force_dot : bool) :
  Py.contains exp_sign
    (_scientific_notation digitstr exp10 exp_sign digits_to_dot force_dot)
  = true.
Proof.
  unfold _scientific_notation.
  repeat match goal with
         | |- context [if ?b then _ else _] => destruct b
         end;
    repeat rewrite contains_app; unfold char; cbn [Py.contains];
    rewrite Ascii.eqb_refl; cbn [orb];
    repeat rewrite orb_true_r; reflexivity.
Qed.

Lemma leading_sign_no_letter (f : Float) (leading_space : bool) :
  Py.contains (FloatOps.exp_sign f) (leading_sign f leading_space) = false.
Proof.
  unfold leading_sign, FloatOps.exp_sign.
  destruct (FloatOps.is_negative f), leading_space, (fclass f); reflexivity.
Qed.

(** What [float_to_str] returns for a nonzero number. *)
Lemma float_to_str_nonzero (numbers : Numbers) (f : Float)
    (leading_space type_sign : bool) :
  FloatOps.is_zero f = false ->
  let digits := FloatOps.digits f in
  let digitstr := _get_digits (fst (to_decimal numbers f None)) digits true in
  let exp10' := snd (to_decimal numbers f None) + (digits - 1) in
  float_to_str numbers f leading_space type_sign
  = leading_sign f leading_space
    ++ (if (exp10' >? digits - 1) || (Py.len digitstr - exp10' >? digits + 1)
        then _scientific_notation digitstr exp10' (FloatOps.exp_sign f) 1 false
        else _decimal_notation digitstr exp10'
               (if type_sign then char (FloatOps.fsigil f) else "") false).
Proof.
  intros Hz. cbv zeta. unfold float_to_str, leading_sign. rewrite Hz.
  destruct (to_decimal numbers f None) as [num exp10]. cbn [fst snd].
  destruct (_ || _); [reflexivity |].
  destruct type_sign; reflexivity.
Qed.

(** C1.  For a nonzero Single or Double, with [digitstr] the significant
    digits of the decimal form without trailing zeros and [exp10'] the
    position of the first digit, [float_to_str] uses scientific notation if
    and only if [exp10' > digits - 1] or [len(digitstr) - exp10' > digits + 1],
    and decimal notation otherwise; the exponent letter is in the output
    exactly in the first case. *)
Theorem float_to_str_scientific_iff (numbers : Numbers) (f : Float)
    (leading_space type_sign : bool) :
  FloatOps.is_zero f = false ->
  let digits := FloatOps.digits f in
  let digitstr := _get_digits (fst (to_decimal numbers f None)) digits true in
  let exp10' := snd (to_decimal numbers f None) + digits - 1 in
  let scientific :=
    (exp10' >? digits - 1) || (Py.len digitstr - exp10' >? digits + 1) in
  float_to_str numbers f leading_space type_sign
  = leading_sign f leading_space
    ++ (if scientific
        then _scientific_notation digitstr exp10' (FloatOps.exp_sign f) 1 false
        else _decimal_notation digitstr exp10'
               (if type_sign then char (FloatOps.fsigil f) else "") false)
  /\ Py.contains (FloatOps.exp_sign f)
       (float_to_str numbers f leading_space type_sign) = scientific.
Proof.
  intros Hz digits digitstr exp10' scientific.
  pose proof (float_to_str_nonzero numbers f leading_space type_sign Hz) as E.
  cbv zeta in E. fold digits in E. fold digitstr in E.
  replace (snd (to_decimal numbers f None) + (digits - 1)) with exp10' in E
    by (subst exp10'; lia).
  fold scientific in E. split; [exact E |].
  rewrite E, contains_app, leading_sign_no_letter. cbn [orb].
  destruct scientific.
  - apply scientific_notation_has_letter.
  - apply all_chars_not_contains with (p := is_decimal_char).
    + apply decimal_notation_chars.
      * apply get_digits_all_digits.
      * unfold FloatOps.fsigil.
        destruct type_sign, (fclass f); reflexivity.
    + unfold FloatOps.exp_sign. destruct (fclass f); reflexivity.
Qed.

(** Single 12345.678 on the PRINT path: decimal notation, " 12345.68". *)
Lemma float_to_str_scientific_iff_witness :
  FloatOps.is_zero single_12345_678 = false
  /\ float_to_str Mbf.numbers single_12345_678 true false = " 12345.68"
  /\ Py.contains (FloatOps.exp_sign single_12345_678)
       (float_to_str Mbf.numbers single_12345_678 true false) = false.
Proof.
  split; [reflexivity |].
  apply (float_to_str_scientific_iff Mbf.numbers single_12345_678 true false).
  reflexivity.
Defined.

(** ** The type sigil in a listing *)

Lemma decimal_notation_double_sigil (digitstr : string) (exp10 : Z)
    (force_dot : bool) :
  _decimal_notation digitstr exp10 "#" force_dot
  = _decimal_notation digitstr exp10 "" force_dot ++ "#".
Proof.
  unfold _decimal_notation. cbn [String.eqb Ascii.eqb Bool.eqb].
  rewrite orb_true_r, orb_false_r.
  repeat match goal with
         | |- context [if ?b then _ else _] => destruct b
         end;
    rewrite ?app_empty_r, ?app_assoc; reflexivity.
Qed.

Lemma decimal_notation_single_sigil (digitstr : string) (exp10 : Z)
    (force_dot : bool) :
  _decimal_notation digitstr exp10 "!" force_dot
  = _decimal_notation digitstr exp10 "" force_dot
    ++ (if (exp10 + 1 >=? Py.len digitstr) && negb force_dot then "!" else "").
Proof.
  unfold _decimal_notation. cbn [String.eqb Ascii.eqb Bool.eqb].
  rewrite !orb_false_r.
  destruct (exp10 + 1 >=? Py.len digitstr); cbn [andb].
  - destruct force_dot; cbn [negb]; rewrite ?app_empty_r, ?app_assoc;
      reflexivity.
  - destruct (exp10 + 1 >? 0); rewrite ?app_empty_r; reflexivity.
Qed.

(** C2, as the code has it.  In decimal notation the sigil '#' of a Double
    is always appended, and the sigil '!' of a Single is appended only when
    there is no forced dot and no digit follows the point.  On the listing
    path a nonzero number therefore gets '#' when it is a Double in decimal
    notation, '!' when it is a Single printed as a whole number, and
    nothing otherwise: Single 12345.678, whose decimal form is
    1234568 * 10^-2, is listed as "12345.68". *)
Theorem listing_sigil_appended (numbers : Numbers) (f : Float)
    (leading_space : bool) (digitstr : string) (exp10 : Z) (force_dot : bool) :
  FloatOps.is_zero f = false ->
  _decimal_notation digitstr exp10 "#" force_dot
  = _decimal_notation digitstr exp10 "" force_dot ++ "#"
  /\ _decimal_notation digitstr exp10 "!" force_dot
     = _decimal_notation digitstr exp10 "" force_dot
       ++ (if (exp10 + 1 >=? Py.len digitstr) && negb force_dot
           then "!" else "")
  /\ (let digits := FloatOps.digits f in
      let digitstr := _get_digits (fst (to_decimal numbers f None)) digits true in
      let exp10' := snd (to_decimal numbers f None) + digits - 1 in
      float_to_str numbers f leading_space true
      = float_to_str numbers f leading_space false
        ++ (if (exp10' >? digits - 1)
               || (Py.len digitstr - exp10' >? digits + 1)
            then "" else listing_sigil f digitstr exp10'))
  /\ (f = single_12345_678 ->
      to_decimal numbers f None = (1234568, -2) ->
      number_to_str numbers (Num f) false false = Ok "12345.68").
Proof.
  intros Hz.
  split; [apply decimal_notation_double_sigil |].
  split; [apply decimal_notation_single_sigil |].
  split.
  - cbv zeta.
    rewrite !float_to_str_nonzero by exact Hz. cbv zeta.
    replace (snd (to_decimal numbers f None) + (FloatOps.digits f - 1))
      with (snd (to_decimal numbers f None) + FloatOps.digits f - 1) by lia.
    destruct (_ || _); [now rewrite app_empty_r |].
    rewrite app_assoc. f_equal.
    unfold listing_sigil, FloatOps.fsigil, char.
    destruct (fclass f); cbn [class_sigil typechar_ascii].
    + rewrite decimal_notation_single_sigil. cbn [negb].
      now rewrite andb_true_r.
    + apply decimal_notation_double_sigil.
  - intros -> Hdec. unfold number_to_str. cbn [negb andb].
    rewrite float_to_str_nonzero by reflexivity. cbv zeta.
    rewrite Hdec. reflexivity.
Qed.

(** LIST of Single 12345.678 *)
Lemma listing_sigil_appended_witness :
  FloatOps.is_zero single_12345_678 = false
  /\ to_decimal Mbf.numbers single_12345_678 None = (1234568, -2)
  /\ number_to_str Mbf.numbers (Num single_12345_678) false false
     = Ok "12345.68".
Proof.
  split; [reflexivity | split; [reflexivity |]].
  apply (listing_sigil_appended Mbf.numbers single_12345_678 false "" 0 false);
    reflexivity.
Defined.

(** C2 fails as stated: in listing mode Single 12345.678 is "12345.68",
    without the sigil. *)
Lemma listing_12345_678_counterexample :
  Mbf.to_decimal single_12345_678 None = (1234568, -2)
  /\ number_to_str Mbf.numbers (Num single_12345_678) false false
     = Ok "12345.68"
  /\ number_to_str Mbf.numbers (Num single_12345_678) false false
     <> Ok "12345.68!".
Proof.
  split; [reflexivity | split; [reflexivity |]].
  vm_compute. discriminate.
Qed.

(** ** Scenarios of the spec and of the comments in values.py *)

(** PRINT USING "#^^^^"; 1 gives " E+01", as the comment in
    [_format_float_scientific] says. *)
Example print_using_one_scientific :
  format_number Mbf.numbers (FloatOps.from_integer (IntegerOps.le_encode 2 1))
    "#^^^^" 1 0 = Ok " E+01".
Proof. reflexivity. Qed.

(** PRINT USING "##.##"; 1.2 *)
Example print_using_fixed :
  format_number Mbf.numbers
    (mkFloat SingleClass (IntegerOps.le_encode 4 0x8119999A)) "##.##" 2 2
  = Ok " 1.20".
Proof. reflexivity. Qed.

(** INSTR(3, "ABCABC", "BC") is 5. *)
Example instr_from_third :
  Values.instr (Mbf.string_space "ABCABCBC") (Str (Mbf.descriptor 6 0))
    (Str (Mbf.descriptor 2 6)) 3 = Ok (integer_of 5).
Proof. reflexivity. Qed.

(** Integer 1 is listed as "1!" once it is a Single, and 1E+08 in
    scientific notation. *)
Example listing_whole_single :
  float_to_str Mbf.numbers (FloatOps.from_integer (IntegerOps.le_encode 2 1))
    false true = "1!"
  /\ float_to_str Mbf.numbers
       (mkFloat SingleClass (IntegerOps.le_encode 4 0x9B3EBC20)) false true
     = "1E+08".
Proof. split; reflexivity. Qed.

(** * More properties of the facade *)

(** ** Byte representation *)

(** X1.  [from_bytes] accepts exactly the buffers of 2, 3, 4 and 8 bytes:
    the value it returns has the buffer as its bytes and the size of its
    type; any other size raises KeyError. *)
Theorem from_bytes_keeps_bytes (token_bytes : string) :
  match from_bytes token_bytes with
  | Ok v =>
      to_bytes v = token_bytes /\ well_sized v = true
      /\ Py.len token_bytes = TYPE_TO_SIZE (sigil v)
  | Raise e =>
      e = KeyError
      /\ Py.len token_bytes <> 2 /\ Py.len token_bytes <> 3
      /\ Py.len token_bytes <> 4 /\ Py.len token_bytes <> 8
  end.
Proof.
  unfold from_bytes, SIZE_TO_TYPE, well_sized.
  destruct (Z.eqb_spec (Py.len token_bytes) 2) as [E2 |];
    [cbn; rewrite E2; auto |].
  destruct (Z.eqb_spec (Py.len token_bytes) 3) as [E3 |];
    [cbn; rewrite E3; auto |].
  destruct (Z.eqb_spec (Py.len token_bytes) 4) as [E4 |];
    [cbn; rewrite E4; auto |].
  destruct (Z.eqb_spec (Py.len token_bytes) 8) as [E8 |];
    [cbn; rewrite E8; auto |].
  cbn. auto.
Qed.

(** X2.  A value whose buffer has the size of its type is read back
    unchanged from its bytes. *)
Theorem from_bytes_of_to_bytes (v : value) :
  well_sized v = true -> from_bytes (to_bytes v) = Ok v.
Proof.
  unfold well_sized, from_bytes. intros H. apply Z.eqb_eq in H.
  rewrite H. destruct v as [buf | [[] buf] | desc]; reflexivity.
Qed.

Lemma from_bytes_of_to_bytes_witness :
  well_sized single_32768 = true
  /\ from_bytes (to_bytes single_32768) = Ok single_32768.
Proof.
  split; [reflexivity |]. apply from_bytes_of_to_bytes. reflexivity.
Defined.

(** ** Type promotion *)

(** X3.  [to_most_precise] fails with Type Mismatch exactly when one of
    the two values is a string.  Otherwise both results have the most
    precise of the two types, and a value that already has it is returned
    as it is. *)
Theorem to_most_precise_same_type (numbers : Numbers) (l r : value) :
  match Values.to_most_precise numbers l r with
  | Ok (l', r') =>
      is_numeric l = true /\ is_numeric r = true
      /\ sigil l' = most_precise (sigil l) (sigil r)
      /\ sigil r' = most_precise (sigil l) (sigil r)
      /\ (sigil l = sigil l' -> l' = l)
      /\ (sigil r = sigil r' -> r' = r)
  | Raise e =>
      e = RunError TYPE_MISMATCH
      /\ (is_numeric l = false \/ is_numeric r = false)
  end.
Proof.
  destruct l as [bl | [[] bl] | dl], r as [br | [[] br] | dr]; cbn;
    repeat split; auto; try discriminate.
Qed.

(** X4.  [to_type] returns a value of the type asked for, returns a value
    that already has this type unchanged, and raises Type Mismatch when a
    number is asked to be a string or a string to be a number. *)
Theorem to_type_gives_type (numbers : Numbers) (tc : typechar) (v : value) :
  match Facade.to_type numbers tc v with
  | Ok r => sigil r = tc /\ (sigil v = tc -> r = v)
  | Raise e =>
      sigil v <> tc
      /\ (match tc, sigil v with
          | STR, _ | _, STR => e = RunError TYPE_MISMATCH
          | _, _ => tc = INT /\ e = RunError OVERFLOW
          end)
  end.
Proof.
  destruct tc, v as [buf | [[] buf] | desc]; cbn;
    try (repeat split; auto; discriminate).
  all: unfold IntegerOps.from_int;
    destruct (_ && _); cbn; repeat split; auto; discriminate.
Qed.

(** ** Absolute value *)

Lemma sign_byte_step (c e x : ascii) (r : string) :
  FloatOps.sign_byte (String c (String e (String x r)))
  = FloatOps.sign_byte (String e (String x r)).
Proof. reflexivity. Qed.

Lemma sign_byte_on_sign_byte (g : ascii -> ascii) (buf : string) :
  (2 <= String.length buf)%nat ->
  FloatOps.sign_byte (FloatOps.on_sign_byte g buf)
  = g (FloatOps.sign_byte buf).
Proof.
  induction buf as [| c | m e | c e x r IH] using buffer_ind; cbn [String.length];
    intros Hlen; try lia; [reflexivity |].
  rewrite on_sign_byte_step, sign_byte_step.
  destruct (on_sign_byte_shape g e x r) as (e' & x' & r' & E).
  rewrite E in *. rewrite sign_byte_step. apply IH. cbn. lia.
Qed.

Lemma on_sign_byte_ext (g h : ascii -> ascii) (buf : string) :
  (forall c, g c = h c) ->
  FloatOps.on_sign_byte g buf = FloatOps.on_sign_byte h buf.
Proof.
  intros Hgh.
  induction buf as [| c | m e | c e x r IH] using buffer_ind;
    try reflexivity.
  - cbn. now rewrite Hgh.
  - rewrite !on_sign_byte_step. now rewrite IH.
Qed.

Lemma is_negative_iabs (f : Float) :
  FloatOps.is_negative (FloatOps.iabs f) = false.
Proof.
  unfold FloatOps.is_negative, FloatOps.iabs. cbn [fbuf].
  destruct (fbuf f) as [| c [| e r]]; try reflexivity.
  rewrite sign_byte_on_sign_byte by (cbn; lia).
  destruct (FloatOps.sign_byte _); reflexivity.
Qed.

Lemma iabs_idempotent (f : Float) :
  FloatOps.iabs (FloatOps.iabs f) = FloatOps.iabs f.
Proof.
  unfold FloatOps.iabs. cbn [fbuf fclass]. f_equal.
  rewrite on_sign_byte_twice. apply on_sign_byte_ext.
  intros [? ? ? ? ? ? ? ?]; reflexivity.
Qed.

Lemma iabs_ineg (f : Float) :
  FloatOps.iabs (FloatOps.ineg f) = FloatOps.iabs f.
Proof.
  unfold FloatOps.ineg. destruct (FloatOps.is_zero f); [reflexivity |].
  unfold FloatOps.iabs. cbn [fbuf fclass]. f_equal.
  rewrite on_sign_byte_twice. apply on_sign_byte_ext.
  intros [? ? ? ? ? ? ? ?]; reflexivity.
Qed.

Lemma abs_float (numbers : Numbers) (f : Float) :
  Values.abs numbers (Num f) = Ok (Num (FloatOps.iabs f)).
Proof. destruct f as [[] buf]; reflexivity. Qed.

(** X5.  The absolute value of a number is a float that is not negative,
    of the type of the number (Single for an Integer).  Taking it again
    changes nothing, and a number and its negation have the same absolute
    value. *)
Theorem abs_not_negative (numbers : Numbers) (x : value) :
  is_numeric x = true ->
  exists f,
    Values.abs numbers x = Ok (Num f)
    /\ FloatOps.is_negative f = false
    /\ sigil (Num f) = most_precise SNG (sigil x)
    /\ Values.abs numbers (Num f) = Ok (Num f)
    /\ (n <- Values.negate numbers x ;; Values.abs numbers n) = Ok (Num f).
Proof.
  intros Hnum. destruct x as [buf | f | desc]; [| | discriminate].
  - exists (FloatOps.iabs (FloatOps.from_integer buf)).
    rewrite negate_integer. cbn [bind].
    rewrite !abs_float, iabs_idempotent, iabs_ineg, is_negative_iabs.
    repeat split.
  - exists (FloatOps.iabs f).
    rewrite negate_float. cbn [bind].
    rewrite !abs_float, iabs_idempotent, iabs_ineg, is_negative_iabs.
    repeat split. destruct f as [[] b]; reflexivity.
Qed.

(** ABS(-32768), on the Integer. *)
Lemma abs_not_negative_witness :
  exists f,
    Values.abs Mbf.numbers (integer_of (-32768)) = Ok (Num f)
    /\ FloatOps.is_negative f = false
    /\ sigil (Num f) = most_precise SNG (sigil (integer_of (-32768)))
    /\ Values.abs Mbf.numbers (Num f) = Ok (Num f)
    /\ (n <- Values.negate Mbf.numbers (integer_of (-32768)) ;;
        Values.abs Mbf.numbers n) = Ok (Num f).
Proof.
  apply (abs_not_negative Mbf.numbers (integer_of (-32768))). reflexivity.
Defined.

(** ** Bitwise operators *)

Lemma land_16_range (a b : Z) :
  0 <= a < 65536 -> 0 <= b < 65536 -> 0 <= Z.land a b < 65536.
Proof.
  intros Ha Hb.
  assert (Hnn : 0 <= Z.land a b) by (apply Z.land_nonneg; lia).
  split; [exact Hnn |].
  destruct (Z.eq_dec (Z.land a b) 0) as [-> | Hnz]; [lia |].
  change 65536 with (2 ^ 16). apply Z.log2_lt_pow2; [lia |].
  destruct (Z.ltb_spec (Z.log2 (Z.land a b)) 16) as [Hlt | Hge]; [exact Hlt |].
  exfalso.
  pose proof (Z.bit_log2 (Z.land a b) ltac:(lia)) as Hbit.
  rewrite Z.land_spec, !testbit_above_16 in Hbit by lia.
  discriminate.
Qed.

Lemma lor_16_range (a b : Z) :
  0 <= a < 65536 -> 0 <= b < 65536 -> 0 <= Z.lor a b < 65536.
Proof.
  intros Ha Hb.
  assert (Hnn : 0 <= Z.lor a b) by (apply Z.lor_nonneg; lia).
  split; [exact Hnn |].
  destruct (Z.eq_dec (Z.lor a b) 0) as [-> | Hnz]; [lia |].
  change 65536 with (2 ^ 16). apply Z.log2_lt_pow2; [lia |].
  destruct (Z.ltb_spec (Z.log2 (Z.lor a b)) 16) as [Hlt | Hge]; [exact Hlt |].
  exfalso.
  pose proof (Z.bit_log2 (Z.lor a b) ltac:(lia)) as Hbit.
  rewrite Z.lor_spec, !testbit_above_16 in Hbit by lia.
  discriminate.
Qed.

(** X6.  On operands that convert to Integer, AND, OR and XOR never
    overflow: each returns the 2-byte Integer whose unsigned value is the
    bitwise operation on the unsigned 16-bit views of the operands. *)
Theorem bitwise_and_or_xor (numbers : Numbers) (x y : value) (ux uy : Z) :
  well_sized x = true ->
  well_sized y = true ->
  Values.unsigned_view numbers x = Ok ux ->
  Values.unsigned_view numbers y = Ok uy ->
  Facade.bitwise_and numbers x y
    = Ok (Integer (IntegerOps.le_encode 2 (Z.land ux uy)))
  /\ Facade.bitwise_or numbers x y
     = Ok (Integer (IntegerOps.le_encode 2 (Z.lor ux uy)))
  /\ Values.bitwise_xor numbers x y
     = Ok (Integer (IntegerOps.le_encode 2 (Z.lxor ux uy)))
  /\ IntegerOps.to_int (IntegerOps.le_encode 2 (Z.land ux uy)) true
     = Z.land ux uy
  /\ IntegerOps.to_int (IntegerOps.le_encode 2 (Z.lor ux uy)) true
     = Z.lor ux uy
  /\ IntegerOps.to_int (IntegerOps.le_encode 2 (Z.lxor ux uy)) true
     = Z.lxor ux uy.
Proof.
  intros Sx Sy Vx Vy.
  pose proof (unsigned_view_range numbers x ux Sx Vx) as Rx.
  pose proof (unsigned_view_range numbers y uy Sy Vy) as Ry.
  pose proof (land_16_range ux uy Rx Ry).
  pose proof (lor_16_range ux uy Rx Ry).
  pose proof (lxor_16_range ux uy Rx Ry).
  unfold Facade.bitwise_and, Facade.bitwise_or, Values.bitwise_xor.
  rewrite Vx, Vy. cbn [bind].
  rewrite !from_int_unsigned, !to_int_unsigned_encode by assumption.
  repeat split.
Qed.

(** 12 AND 10, 12 OR 10, 12 XOR 10 *)
Lemma bitwise_and_or_xor_witness :
  Facade.bitwise_and Mbf.numbers (integer_of 12) (integer_of 10)
    = Ok (integer_of 8)
  /\ Facade.bitwise_or Mbf.numbers (integer_of 12) (integer_of 10)
     = Ok (integer_of 14)
  /\ Values.bitwise_xor Mbf.numbers (integer_of 12) (integer_of 10)
     = Ok (integer_of 6).
Proof.
  destruct (bitwise_and_or_xor Mbf.numbers (integer_of 12) (integer_of 10)
              12 10 eq_refl eq_refl eq_refl eq_refl) as (A & O & X & _).
  repeat split; assumption.
Defined.

Lemma chr_ord (c : ascii) : Py.chr (Py.ord c) = c.
Proof.
  unfold Py.chr, Py.ord. rewrite N2Z.id. apply ascii_N_embedding.
Qed.

(** Two bytes are the encoding of their little-endian value. *)
Lemma le_encode_decode_2 (buf : string) :
  String.length buf = 2%nat ->
  IntegerOps.le_encode 2 (IntegerOps.le_decode buf) = buf.
Proof.
  destruct buf as [| a [| b [| c s]]]; try discriminate. intros _.
  cbn [IntegerOps.le_decode IntegerOps.le_encode].
  pose proof (ord_range a). pose proof (ord_range b).
  replace ((Py.ord a + 256 * (Py.ord b + 256 * 0)) mod 256) with (Py.ord a)
    by (Z.div_mod_to_equations; lia).
  replace (((Py.ord a + 256 * (Py.ord b + 256 * 0)) / 256) mod 256)
    with (Py.ord b) by (Z.div_mod_to_equations; lia).
  now rewrite !chr_ord.
Qed.

(** NOT on an Integer inverts the 16 stored bits. *)
Lemma bitwise_not_integer (float_to_int : Float -> result Z) (buf : string) :
  String.length buf = 2%nat ->
  Facade.bitwise_not float_to_int (Integer buf)
  = Ok (Integer (IntegerOps.le_encode 2 (65535 - IntegerOps.le_decode buf))).
Proof.
  intros Hlen. pose proof (le_decode_2_range buf Hlen) as Hu.
  pose proof (to_int_signed_range buf Hlen) as Hs.
  unfold Facade.bitwise_not, Facade.number_to_int. cbn [bind].
  unfold IntegerOps.from_int.
  destruct (Z.leb_spec (-32768) (- IntegerOps.to_int buf false - 1)); [| lia].
  destruct (Z.leb_spec (- IntegerOps.to_int buf false - 1) 32767); [| lia].
  cbn [andb]. do 3 f_equal.
  unfold IntegerOps.to_int in *.
  destruct (Z.leb_spec 32768 (IntegerOps.le_decode buf)).
  - replace (- (IntegerOps.le_decode buf - 65536) - 1)
      with (65535 - IntegerOps.le_decode buf) by lia.
    apply Z.mod_small. lia.
  - symmetry. apply Z.mod_unique with (q := -1); lia.
Qed.

(** X7.  NOT of a well-sized Integer never overflows.  The result is the
    Integer -x-1, its stored bits are those of [x] inverted, and NOT of
    the result is [x] again. *)
Theorem bitwise_not_inverts (float_to_int : Float -> result Z) (buf : string) :
  String.length buf = 2%nat ->
  exists buf',
    Facade.bitwise_not float_to_int (Integer buf) = Ok (Integer buf')
    /\ String.length buf' = 2%nat
    /\ IntegerOps.to_int buf' false = - IntegerOps.to_int buf false - 1
    /\ IntegerOps.to_int buf' true = invert16 (IntegerOps.to_int buf true)
    /\ Facade.bitwise_not float_to_int (Integer buf') = Ok (Integer buf).
Proof.
  intros Hlen. pose proof (le_decode_2_range buf Hlen) as Hu.
  exists (IntegerOps.le_encode 2 (65535 - IntegerOps.le_decode buf)).
  split; [now apply bitwise_not_integer |].
  split; [reflexivity |].
  split; [| split].
  - unfold IntegerOps.to_int. rewrite le_decode_encode_2.
    rewrite (Z.mod_small (65535 - _)) by lia.
    destruct (Z.leb_spec 32768 (65535 - IntegerOps.le_decode buf)),
             (Z.leb_spec 32768 (IntegerOps.le_decode buf)); lia.
  - rewrite to_int_unsigned_encode by lia.
    unfold invert16, IntegerOps.to_int. now apply ffff_minus_is_xor.
  - rewrite bitwise_not_integer by reflexivity.
    rewrite le_decode_encode_2, (Z.mod_small (65535 - _)) by lia.
    replace (65535 - (65535 - IntegerOps.le_decode buf))
      with (IntegerOps.le_decode buf) by lia.
    now rewrite le_encode_decode_2.
Qed.

(** NOT 0 is -1. *)
Lemma bitwise_not_inverts_witness :
  exists buf',
    Facade.bitwise_not (fun f => Ok (Mbf.round_int f)) (integer_of 0)
      = Ok (Integer buf')
    /\ String.length buf' = 2%nat
    /\ IntegerOps.to_int buf' false = - 0 - 1
    /\ IntegerOps.to_int buf' true = invert16 0
    /\ Facade.bitwise_not (fun f => Ok (Mbf.round_int f)) (Integer buf')
       = Ok (integer_of 0).
Proof.
  apply (bitwise_not_inverts (fun f => Ok (Mbf.round_int f))
           (IntegerOps.le_encode 2 0)).
  reflexivity.
Defined.

(** X8.  On well-sized Integers, EQV is NOT of XOR and IMP is OR of the
    inverted left operand with the right one. *)
Theorem eqv_imp_from_not (numbers : Numbers) (float_to_int : Float -> result Z)
    (bx yb : string) :
  String.length bx = 2%nat ->
  String.length yb = 2%nat ->
  Values.bitwise_eqv numbers (Integer bx) (Integer yb)
    = (w <- Values.bitwise_xor numbers (Integer bx) (Integer yb) ;;
       Facade.bitwise_not float_to_int w)
  /\ Facade.bitwise_imp numbers (Integer bx) (Integer yb)
     = (n <- Facade.bitwise_not float_to_int (Integer bx) ;;
        Facade.bitwise_or numbers n (Integer yb))
  /\ exists r, Values.bitwise_eqv numbers (Integer bx) (Integer yb)
               = Ok (Integer r)
               /\ IntegerOps.to_int r true
                  = invert16 (Z.lxor (IntegerOps.to_int bx true)
                                     (IntegerOps.to_int yb true)).
Proof.
  intros Hx Hy.
  pose proof (le_decode_2_range bx Hx) as Rx.
  pose proof (le_decode_2_range yb Hy) as Ry.
  pose proof (lxor_16_range _ _ Rx Ry) as Rxor.
  split; [| split].
  - unfold Values.bitwise_eqv, Values.bitwise_xor.
    rewrite !unsigned_view_integer. cbn [bind].
    rewrite !from_int_unsigned by lia. cbn [bind].
    rewrite bitwise_not_integer by reflexivity.
    rewrite le_decode_encode_2, Z.mod_small by lia. reflexivity.
  - unfold Facade.bitwise_imp, Facade.bitwise_or.
    rewrite bitwise_not_integer by exact Hx. cbn [bind].
    rewrite !unsigned_view_integer. cbn [bind].
    rewrite le_decode_encode_2, Z.mod_small by lia. reflexivity.
  - eexists. split.
    + unfold Values.bitwise_eqv. rewrite !unsigned_view_integer. cbn [bind].
      apply from_int_unsigned. lia.
    + rewrite to_int_unsigned_encode by lia.
      unfold invert16, IntegerOps.to_int. now apply ffff_minus_is_xor.
Qed.

(** 5 EQV 3 and 5 IMP 3 *)
Lemma eqv_imp_from_not_witness :
  Values.bitwise_eqv Mbf.numbers (integer_of 5) (integer_of 3)
    = (w <- Values.bitwise_xor Mbf.numbers (integer_of 5) (integer_of 3) ;;
       Facade.bitwise_not (fun f => Ok (Mbf.round_int f)) w)
  /\ Facade.bitwise_imp Mbf.numbers (integer_of 5) (integer_of 3)
     = (n <- Facade.bitwise_not (fun f => Ok (Mbf.round_int f)) (integer_of 5) ;;
        Facade.bitwise_or Mbf.numbers n (integer_of 3)).
Proof.
  destruct (eqv_imp_from_not Mbf.numbers (fun f => Ok (Mbf.round_int f))
              (IntegerOps.le_encode 2 5) (IntegerOps.le_encode 2 3)
              eq_refl eq_refl) as (E & I & _).
  split; assumption.
Defined.

(** ** Order of strings *)

Lemma lex_lt_irrefl (a : string) : lex_lt a a = false.
Proof.
  induction a as [| x a IH]; cbn; [reflexivity |].
  now rewrite Z.ltb_irrefl.
Qed.

(** Of two strings, one is less than the other or they are equal, and
    only one of the three. *)
Lemma lex_trichotomy (a b : string) :
  match lex_lt a b, String.eqb a b, lex_lt b a with
  | true, false, false | false, true, false | false, false, true => True
  | _, _, _ => False
  end.
Proof.
  revert b. induction a as [| x a IH]; intros [| y b]; cbn; try exact I.
  specialize (IH b).
  destruct (Z.ltb_spec (Py.ord x) (Py.ord y)) as [Hxy | Hxy];
    destruct (Z.ltb_spec (Py.ord y) (Py.ord x)) as [Hyx | Hyx]; try lia.
  - destruct (Ascii.eqb_spec x y) as [-> |]; [lia | exact I].
  - destruct (Ascii.eqb_spec x y) as [-> |]; [lia | exact I].
  - assert (x = y) as -> by (apply ord_inj; lia).
    rewrite Ascii.eqb_refl. exact IH.
Qed.

(** X9.  Of the comparisons [<], [=] and [>] of two strings exactly one
    is true (Integer -1) and the other two are false (Integer 0); [<=] and
    [>=] are true when [<] or [=], and [>] or [=], is; [<>] is the opposite
    of [=]. *)
Theorem string_comparisons_trichotomy (numbers : Numbers)
    (strings : StringSpace) (dl dr : string) :
  let truth (b : bool) := Ok (integer_of (if b then -1 else 0)) in
  exists less equal greater : bool,
    Values.lt numbers strings (Str dl) (Str dr) = truth less
    /\ Values.equals numbers strings (Str dl) (Str dr) = truth equal
    /\ Values.gt numbers strings (Str dl) (Str dr) = truth greater
    /\ Values.lte numbers strings (Str dl) (Str dr) = truth (less || equal)
    /\ Values.gte numbers strings (Str dl) (Str dr) = truth (greater || equal)
    /\ Values.not_equals numbers strings (Str dl) (Str dr)
       = truth (less || greater)
    /\ match less, equal, greater with
       | true, false, false | false, true, false | false, false, true => True
       | _, _, _ => False
       end.
Proof.
  intros truth.
  exists (lex_lt (copy strings dl) (copy strings dr)),
         (String.eqb (copy strings dl) (copy strings dr)),
         (lex_lt (copy strings dr) (copy strings dl)).
  pose proof (lex_trichotomy (copy strings dl) (copy strings dr)) as T.
  unfold Values.lt, Values.gt, Values.lte, Values.gte, Values.equals,
    Values.not_equals, Values._bool_eq.
  rewrite !bool_gt_strings.
  unfold Values.copy_string, pass_string. cbn [sigil bind].
  rewrite !from_bool_value.
  destruct (lex_lt (copy strings dl) (copy strings dr)),
           (String.eqb (copy strings dl) (copy strings dr)),
           (lex_lt (copy strings dr) (copy strings dl));
    try contradiction; repeat split.
Qed.

(** ** INSTR *)

Lemma drop_drop (i j : nat) (s : string) :
  Py.drop i (Py.drop j s) = Py.drop (j + i) s.
Proof.
  revert s. induction j as [| j IH]; intros s; [reflexivity |].
  destruct s as [| c s]; cbn [Py.drop Nat.add].
  - destruct i; reflexivity.
  - apply IH.
Qed.

Lemma length_drop (n : nat) (s : string) :
  String.length (Py.drop n s) = (String.length s - n)%nat.
Proof.
  revert s. induction n as [| n IH]; intros [| c s]; cbn; auto.
Qed.

(** [find] returns the first index at which [sub] starts, or -1 when
    there is none. *)
Lemma find_from_first (sub s : string) (pos : Z) :
  0 <= pos ->
  (Py.find_from sub s pos = -1
   /\ forall i, (i <= String.length s)%nat ->
                String.prefix sub (Py.drop i s) = false)
  \/ exists k,
       Py.find_from sub s pos = pos + Z.of_nat k
       /\ (k <= String.length s)%nat
       /\ String.prefix sub (Py.drop k s) = true
       /\ forall i, (i < k)%nat -> String.prefix sub (Py.drop i s) = false.
Proof.
  revert pos. induction s as [| c s IH]; intros pos Hpos.
  - cbn [Py.find_from]. destruct (String.prefix sub "") eqn:E.
    + right. exists 0%nat. cbn. repeat split; auto; try lia.
    + left. split; [reflexivity |]. intros i Hi. cbn in Hi.
      destruct i; [exact E | lia].
  - cbn [Py.find_from]. destruct (String.prefix sub (String c s)) eqn:E.
    + right. exists 0%nat. cbn [Py.drop]. repeat split; auto; try lia.
    + destruct (IH (pos + 1) ltac:(lia)) as [[Hf Hno] | (k & Hf & Hk & Hp & Hno)].
      * left. split; [exact Hf |]. intros i Hi.
        destruct i as [| i]; [exact E |]. cbn [Py.drop]. apply Hno.
        cbn in Hi. lia.
      * right. exists (S k). cbn [Py.drop String.length].
        repeat split; auto; try lia.
        intros i Hi. destruct i as [| i]; [exact E |].
        cbn [Py.drop]. apply Hno. lia.
Qed.

(** X10.  INSTR from a start position within a string of at most 255
    bytes returns the position, counted from 1, of the first place at or
    after [start] where the substring begins, and 0 when there is none. *)
Theorem instr_first_occurrence (strings : StringSpace) (big small : string)
    (start : Z) :
  1 <= start <= Py.len (copy strings big) ->
  Py.len (copy strings big) <= 255 ->
  let starts_at (p : Z) :=
    String.prefix (copy strings small)
      (Py.drop (Z.to_nat (p - 1)) (copy strings big)) in
  exists p,
    Values.instr strings (Str big) (Str small) start = Ok (integer_of p)
    /\ IntegerOps.to_int (to_bytes (integer_of p)) false = p
    /\ ((p = 0
         /\ forall q, start <= q <= Py.len (copy strings big) + 1 ->
                      starts_at q = false)
        \/ (start <= p <= Py.len (copy strings big) + 1
            /\ starts_at p = true
            /\ forall q, start <= q < p -> starts_at q = false)).
Proof.
  intros Hstart Hlen starts_at. subst starts_at. cbv beta.
  set (b := copy strings big) in *. set (s := copy strings small).
  unfold Values.instr, Values.copy_string, pass_string. cbn [sigil bind].
  fold b s.
  assert (Hne : String.eqb b "" = false).
  { apply String.eqb_neq. intros E. rewrite E in Hstart.
    unfold Py.len in Hstart. cbn in Hstart. lia. }
  rewrite Hne. cbn [orb].
  destruct (Z.gtb_spec start (Py.len b)); [lia |].
  unfold Py.find, Py.slice_from, Py.bound.
  destruct (Z.ltb_spec (start - 1) 0); [lia |].
  set (t := Py.drop (Z.to_nat (start - 1)) b).
  assert (Ht : Z.of_nat (String.length t) = Py.len b - (start - 1)).
  { subst t. rewrite length_drop. unfold Py.len in *. lia. }
  destruct (find_from_first s t 0 ltac:(lia))
    as [[Hf Hno] | (k & Hf & Hk & Hp & Hno)].
  - rewrite Hf. cbn [Z.eqb]. exists 0.
    split; [reflexivity |]. split; [reflexivity |].
    left. split; [reflexivity |]. intros q Hq.
    replace (Z.to_nat (q - 1))
      with (Z.to_nat (start - 1) + Z.to_nat (q - start))%nat by lia.
    rewrite <- drop_drop. fold t. apply Hno. lia.
  - rewrite Hf. cbn [Z.add].
    destruct (Z.eqb_spec (Z.of_nat k) (-1)); [lia |].
    exists (start + Z.of_nat k).
    assert (Hr : -32768 <= start + Z.of_nat k <= 32767) by lia.
    split.
    { unfold IntegerOps.from_int.
      destruct (Z.leb_spec (-32768) (start + Z.of_nat k)); [| lia].
      destruct (Z.leb_spec (start + Z.of_nat k) 32767); [| lia].
      reflexivity. }
    split; [now apply to_int_signed_encode |].
    right. split; [lia |]. split.
    + replace (Z.to_nat (start + Z.of_nat k - 1))
        with (Z.to_nat (start - 1) + k)%nat by lia.
      rewrite <- drop_drop. exact Hp.
    + intros q Hq.
      replace (Z.to_nat (q - 1))
        with (Z.to_nat (start - 1) + Z.to_nat (q - start))%nat by lia.
      rewrite <- drop_drop. fold t. apply Hno. lia.
Qed.

(** INSTR(3, "ABCABC", "BC") *)
Lemma instr_first_occurrence_witness :
  let space := Mbf.string_space "ABCABCBC" in
  exists p,
    Values.instr space (Str (Mbf.descriptor 6 0)) (Str (Mbf.descriptor 2 6)) 3
      = Ok (integer_of p)
    /\ IntegerOps.to_int (to_bytes (integer_of p)) false = p
    /\ ((p = 0
         /\ forall q, 3 <= q <= Py.len (copy space (Mbf.descriptor 6 0)) + 1 ->
              String.prefix (copy space (Mbf.descriptor 2 6))
                (Py.drop (Z.to_nat (q - 1)) (copy space (Mbf.descriptor 6 0)))
              = false)
        \/ (3 <= p <= Py.len (copy space (Mbf.descriptor 6 0)) + 1
            /\ String.prefix (copy space (Mbf.descriptor 2 6))
                 (Py.drop (Z.to_nat (p - 1)) (copy space (Mbf.descriptor 6 0)))
               = true
            /\ forall q, 3 <= q < p ->
                 String.prefix (copy space (Mbf.descriptor 2 6))
                   (Py.drop (Z.to_nat (q - 1))
                      (copy space (Mbf.descriptor 6 0)))
                 = false)).
Proof.
  intros space.
  apply (instr_first_occurrence space (Mbf.descriptor 6 0)
           (Mbf.descriptor 2 6) 3).
  - vm_compute. split; congruence.
  - vm_compute. congruence.
Defined.

(** ** Width of a PRINT USING field *)

Lemma len_mul (c : ascii) (n : Z) : Py.len (Py.mul c n) = Z.max 0 n.
Proof.
  unfold Py.mul, Py.len.
  assert (H : forall k, String.length (Py.replicate k c) = k)
    by (induction k as [| k IH]; cbn; [reflexivity | now rewrite IH]).
  rewrite H. lia.
Qed.

(** Before the last step, [format_number] has a string [valstr] for the
    number; the last step marks or fills it. *)
Lemma format_number_last_step (numbers : Numbers) (v : Float)
    (tokens : string) (digits_before decimals : Z) :
  tokens <> "" ->
  digits_before + decimals <= 24 ->
  exists valstr,
    format_number numbers v tokens digits_before decimals
    = if Py.len valstr >? Py.len tokens then Ok ("%" ++ valstr)
      else
        Ok (Py.mul (if Py.contains "*" tokens then "*" else " ")
              (Py.len tokens - Py.len valstr) ++ valstr).
Proof.
  intros Htok Hsum. unfold format_number.
  destruct (Z.gtb_spec (digits_before + decimals) 24); [lia |].
  destruct (index_in_range tokens 0 Htok (or_introl eq_refl)) as [first Hf].
  destruct (index_in_range tokens (-1) Htok (or_intror eq_refl)) as [last Hl].
  rewrite Hf. cbn [bind].
  destruct (Ascii.eqb first "+"); cbn [bind]; [eexists; reflexivity |].
  rewrite Hl. cbn [bind].
  destruct (Ascii.eqb last "+"); cbn [bind]; [eexists; reflexivity |].
  destruct (Ascii.eqb last "-"); cbn [bind]; eexists; reflexivity.
Qed.

(** X11.  With at most 24 digits, [format_number] on an empty token
    string raises IndexError; on any other token string it returns a
    string that is never shorter than the tokens: exactly as long when the
    number fits, and otherwise longer and starting with the overflow mark
    '%'. *)
Theorem format_number_width (numbers : Numbers) (v : Float) (tokens : string)
    (digits_before decimals : Z) :
  digits_before + decimals <= 24 ->
  match tokens with
  | EmptyString =>
      format_number numbers v tokens digits_before decimals = Raise IndexError
  | String _ _ =>
      exists out,
        format_number numbers v tokens digits_before decimals = Ok out
        /\ Py.len tokens <= Py.len out
        /\ (Py.len tokens < Py.len out -> exists valstr, out = "%" ++ valstr)
  end.
Proof.
  intros Hsum. destruct tokens as [| c tokens].
  - unfold format_number.
    destruct (Z.gtb_spec (digits_before + decimals) 24); [lia | reflexivity].
  - destruct (format_number_last_step numbers v (String c tokens)
                digits_before decimals ltac:(discriminate) Hsum)
      as [valstr E].
    rewrite E.
    destruct (Z.gtb_spec (Py.len valstr) (Py.len (String c tokens))) as [Hgt | Hle].
    + exists ("%" ++ valstr). split; [reflexivity |].
      change ("%" ++ valstr) with (String "%" valstr).
      rewrite (len_cons "%" valstr).
      split; [lia | intros _; exists valstr; reflexivity].
    + eexists. split; [reflexivity |].
      rewrite len_app, len_mul. split; [lia |]. intros H. lia.
Qed.

(** PRINT USING "##.##"; 12345.678 does not fit. *)
Lemma format_number_width_witness :
  exists out,
    format_number Mbf.numbers single_12345_678 "##.##" 2 2 = Ok out
    /\ Py.len "##.##" <= Py.len out
    /\ (Py.len "##.##" < Py.len out -> exists valstr, out = "%" ++ valstr).
Proof.
  apply (format_number_width Mbf.numbers single_12345_678 "##.##" 2 2).
  vm_compute. congruence.
Defined.

(** ** Digits *)

Lemma length_take (n : nat) (s : string) :
  String.length (Py.take n s) = Nat.min n (String.length s).
Proof.
  revert s. induction n as [| n IH]; intros [| c s]; cbn; auto.
Qed.

Lemma length_rstrip (c : ascii) (s : string) :
  (String.length (Py.rstrip c s) <= String.length s)%nat.
Proof.
  induction s as [| d s IH]; cbn; [lia |].
  destruct (Py.rstrip c s) as [| e r].
  - destruct (Ascii.eqb d c); cbn; lia.
  - cbn in *. lia.
Qed.

Lemma rstrip_idempotent (c : ascii) (s : string) :
  Py.rstrip c (Py.rstrip c s) = Py.rstrip c s.
Proof.
  induction s as [| d s IH]; cbn; [reflexivity |].
  destruct (Py.rstrip c s) as [| e r] eqn:E.
  - destruct (Ascii.eqb d c) eqn:Ed; cbn; [reflexivity | now rewrite Ed].
  - change (Py.rstrip c (String d (String e r)))
      with (match Py.rstrip c (String e r) with
            | EmptyString =>
                if Ascii.eqb d c then EmptyString else String d EmptyString
            | String _ _ as r0 => String d r0
            end).
    now rewrite IH.
Qed.

Lemma str_nat_nonempty (n : Z) : 1 <= Py.len (Py.str_nat n).
Proof.
  unfold Py.str_nat.
  assert (H : forall p, NilEmpty.string_of_uint (Pos.to_uint p) <> "").
  { intros p E.
    apply (f_equal NilEmpty.uint_of_string) in E.
    rewrite NilEmpty.usu in E. cbn in E.
    pose proof (Unsigned.to_uint_nonnil p) as Hn. congruence. }
  destruct (Z.to_N n) as [| p]; [cbn; lia |].
  cbn [N.to_uint]. specialize (H p).
  destruct (NilEmpty.string_of_uint (Pos.to_uint p)); [congruence |].
  rewrite len_cons. pose proof (len_nonneg s). lia.
Qed.

Lemma get_digits_length (num digits : Z) :
  0 <= digits -> Py.len (_get_digits num digits false) = digits.
Proof.
  intros Hd. unfold _get_digits. rewrite len_app, len_mul.
  unfold Py.slice_to, Py.bound.
  destruct (Z.ltb_spec digits 0); [lia |].
  unfold Py.len at 2. rewrite length_take.
  pose proof (str_nat_nonempty (Z.abs num)). unfold Py.len in *. lia.
Qed.

(** X12.  [_get_digits] returns decimal digits only.  Without stripping
    it returns exactly [digits] of them; with stripping at most [digits],
    and stripping what it returns again changes nothing. *)
Theorem get_digits_count (num digits : Z) :
  0 <= digits ->
  Py.len (_get_digits num digits false) = digits
  /\ all_chars is_digit (_get_digits num digits false) = true
  /\ Py.len (_get_digits num digits true) <= digits
  /\ all_chars is_digit (_get_digits num digits true) = true
  /\ _get_digits num digits true
     = Py.rstrip "0" (_get_digits num digits false)
  /\ Py.rstrip "0" (_get_digits num digits true) = _get_digits num digits true.
Proof.
  intros Hd.
  pose proof (get_digits_length num digits Hd) as Hlen.
  split; [exact Hlen |].
  split; [apply get_digits_all_digits |].
  split.
  - unfold _get_digits in *.
    pose proof (length_rstrip "0"
                  (Py.mul "0" (digits - Py.len (Py.str_nat (Z.abs num)))
                   ++ Py.slice_to (Py.str_nat (Z.abs num)) digits)).
    unfold Py.len in *. lia.
  - split; [apply get_digits_all_digits |].
    split; [reflexivity |].
    unfold _get_digits. apply rstrip_idempotent.
Qed.

Lemma get_digits_count_witness :
  0 <= 7
  /\ _get_digits 1203000 7 false = "1203000"
  /\ _get_digits 1203000 7 true = "1203".
Proof.
  split; [discriminate |].
  destruct (get_digits_count 1203000 7 ltac:(discriminate)) as (_ & _ & _ & _ & E & _).
  split; [reflexivity | exact E].
Defined.

(** ** The exponent in scientific notation *)

Lemma get_digits_two_all :
  forallb (fun e => String.eqb (_get_digits e 2 false) (two_digits e))
    (z_range 0 100) = true.
Proof. vm_compute. reflexivity. Qed.

Lemma get_digits_two (e : Z) :
  0 <= e < 100 -> _get_digits e 2 false = two_digits e.
Proof.
  intros He.
  pose proof (proj1 (forallb_forall _ _) get_digits_two_all e
                (in_z_range e 0 100 ltac:(lia))) as H.
  now apply String.eqb_eq in H.
Qed.

(** X13.  Scientific notation ends with the exponent letter, the sign of
    the exponent [exp10 - digits_to_dot + 1] and exactly two decimal
    digits, which below 100 are the tens and units of its absolute
    value. *)
Theorem scientific_notation_exponent (digitstr : string) (exp10 : Z)
    (exp_sign : ascii) (digits_to_dot : Z) (force_dot : bool) :
  let exponent := exp10 - digits_to_dot + 1 in
  exists body d1 d2,
    _scientific_notation digitstr exp10 exp_sign digits_to_dot force_dot
    = body
      ++ String exp_sign
           (String (if exponent <? 0 then "-" else "+")
              (String d1 (String d2 "")))
    /\ is_digit d1 = true
    /\ is_digit d2 = true
    /\ (Z.abs exponent < 100 ->
        (Py.ord d1 - 48) * 10 + (Py.ord d2 - 48) = Z.abs exponent).
Proof.
  intros exponent. unfold _scientific_notation. fold exponent.
  pose proof (get_digits_length (Z.abs exponent) 2 ltac:(lia)) as Hlen.
  pose proof (get_digits_all_digits (Z.abs exponent) 2 false) as Hdig.
  assert (Hval : Z.abs exponent < 100 ->
                 _get_digits (Z.abs exponent) 2 false
                 = two_digits (Z.abs exponent))
    by (intros H; apply get_digits_two; lia).
  destruct (_get_digits (Z.abs exponent) 2 false) as [| d1 [| d2 [| d3 r]]];
    unfold Py.len in Hlen; cbn in Hlen; try lia.
  cbn [all_chars] in Hdig.
  apply andb_true_iff in Hdig as [H1 Hdig].
  apply andb_true_iff in Hdig as [H2 _].
  exists (if Py.len digitstr >? digits_to_dot
          then Py.slice_to digitstr digits_to_dot ++ "."
               ++ Py.slice_from digitstr digits_to_dot
          else if (Py.len digitstr =? digits_to_dot) && force_dot
               then Py.slice_to digitstr digits_to_dot ++ "."
               else Py.slice_to digitstr digits_to_dot), d1, d2.
  split; [| split; [exact H1 | split; [exact H2 |]]].
  - unfold char.
    destruct (exponent <? 0); rewrite !app_assoc; reflexivity.
  - intros Hsmall. specialize (Hval Hsmall).
    unfold two_digits in Hval.
    assert (E1 : d1 = Py.chr (48 + Z.abs exponent / 10)) by congruence.
    assert (E2 : d2 = Py.chr (48 + Z.abs exponent mod 10)) by congruence.
    rewrite E1, E2.
    pose proof (Z.div_mod (Z.abs exponent) 10 ltac:(lia)).
    pose proof (Z.mod_pos_bound (Z.abs exponent) 10 ltac:(lia)).
    assert (0 <= Z.abs exponent / 10 < 10)
      by (split; [apply Z.div_pos; lia | apply Z.div_lt_upper_bound; lia]).
    rewrite !ord_chr by lia. lia.
Qed.

(** ** Strings that the facade stores *)

Lemma take_all (s : string) : Py.take (String.length s) s = s.
Proof. induction s as [| c s IH]; cbn; [reflexivity | now rewrite IH]. Qed.

Lemma take_drop (n : nat) (s : string) : Py.take n s ++ Py.drop n s = s.
Proof.
  revert s. induction n as [| n IH]; intros [| c s]; cbn; auto.
  now rewrite IH.
Qed.

Lemma take_beyond (n : nat) (s : string) :
  (String.length s <= n)%nat -> Py.take n s = s.
Proof.
  revert s. induction n as [| n IH]; intros [| c s] H; cbn in *;
    try reflexivity; try lia.
  rewrite IH; [reflexivity | lia].
Qed.

Lemma substring_all (s : string) : String.substring 0 (String.length s) s = s.
Proof. induction s as [| c s IH]; cbn; [reflexivity | now rewrite IH]. Qed.

Lemma substring_app (m s : string) :
  String.substring (String.length m) (String.length s) (m ++ s) = s.
Proof.
  induction m as [| c m IH]; cbn [String.length append String.substring].
  - apply substring_all.
  - exact IH.
Qed.

(** The memory string space keeps what is stored in it. *)
Lemma memory_store_law : store_law string Mbf.string_space memory_store.
Proof.
  intros mem s d mem' H. unfold memory_store in H.
  destruct (Z.ltb_spec 255 (Py.len s)); [discriminate |].
  destruct (Z.ltb_spec 65535 (Py.len mem)); [discriminate |].
  cbn [orb] in H. injection H as <- <-.
  eexists. split; [reflexivity |].
  unfold Mbf.string_space, Mbf.descriptor. cbn [copy].
  rewrite le_decode_encode_2.
  pose proof (len_nonneg s). pose proof (len_nonneg mem).
  rewrite Z.mod_small by lia.
  replace (nat_of_ascii (Py.chr (Py.len s))) with (String.length s).
  - unfold Py.len. rewrite Nat2Z.id. apply substring_app.
  - unfold nat_of_ascii.
    pose proof (ord_chr (Py.len s) ltac:(lia)) as E. unfold Py.ord in E.
    unfold Py.len in *. lia.
Qed.

(** X14.  CVI, CVS and CVD read back what MKI$, MKS$ and MKD$ wrote: a
    well-sized Integer, Single or Double made into a string and converted
    back is the same value. *)
Theorem cv_of_mk (numbers : Numbers) (Space : Type)
    (view : Space -> StringSpace)
    (store : Space -> string -> result (value * Space))
    (c : conversion) (sp sp' : Space) (x d : value) :
  store_law Space view store ->
  sigil x = conversion_type c ->
  well_sized x = true ->
  make numbers Space store c sp x = Ok (d, sp') ->
  convert (view sp') c d = Ok x.
Proof.
  intros Law Hsig Hsize Hmk.
  assert (Hstore : store sp (to_bytes x) = Ok (d, sp')).
  { destruct c, x as [buf | [[] buf] | desc]; try discriminate Hsig;
      exact Hmk. }
  destruct (Law _ _ _ _ Hstore) as (desc & -> & Hcopy).
  destruct (cv_results (view sp') desc) as (I & S & D). cbv zeta in I, S, D.
  rewrite Hcopy in I, S, D.
  unfold well_sized in Hsize. apply Z.eqb_eq in Hsize.
  rewrite Hsig in Hsize.
  assert (Htake : forall n, Z.of_nat n = Py.len (to_bytes x) ->
                            Py.take n (to_bytes x) = to_bytes x).
  { intros n Hn. apply take_beyond. unfold Py.len in Hn. lia. }
  destruct c; cbn [convert conversion_type TYPE_TO_SIZE] in *.
  - rewrite I, Hsize. change (2 <? 2) with false. cbv iota.
    rewrite (Htake 2%nat) by (rewrite Hsize; reflexivity).
    destruct x as [buf | [[] buf] | dd]; try discriminate Hsig. reflexivity.
  - rewrite S, Hsize. change (4 <? 4) with false. cbv iota.
    rewrite (Htake 4%nat) by (rewrite Hsize; reflexivity).
    destruct x as [buf | [[] buf] | dd]; try discriminate Hsig. reflexivity.
  - rewrite D, Hsize. change (8 <? 8) with false. cbv iota.
    rewrite (Htake 8%nat) by (rewrite Hsize; reflexivity).
    destruct x as [buf | [[] buf] | dd]; try discriminate Hsig. reflexivity.
Qed.

(** CVS(MKS$(-32768)) *)
Lemma cv_of_mk_witness :
  make Mbf.numbers string memory_store CVS "" single_minus_32768
    = Ok (Str (Mbf.descriptor 4 0), to_bytes single_minus_32768)
  /\ convert (Mbf.string_space (to_bytes single_minus_32768)) CVS
       (Str (Mbf.descriptor 4 0)) = Ok single_minus_32768.
Proof.
  split; [reflexivity |].
  apply (cv_of_mk Mbf.numbers string Mbf.string_space memory_store CVS
           "" (to_bytes single_minus_32768) single_minus_32768
           (Str (Mbf.descriptor 4 0)) memory_store_law);
    reflexivity.
Defined.

Lemma take_min (n : Z) (s : string) :
  0 <= n ->
  Py.take (Z.to_nat (Z.min n (Py.len s))) s = Py.take (Z.to_nat n) s.
Proof.
  intros Hn. unfold Py.len.
  destruct (Z.le_ge_cases n (Z.of_nat (String.length s))).
  - now rewrite Z.min_l by lia.
  - rewrite Z.min_r by lia. rewrite Nat2Z.id, take_all.
    symmetry. apply take_beyond. lia.
Qed.

Lemma len_take_z (n : Z) (s : string) :
  0 <= n -> Py.len (Py.take (Z.to_nat n) s) = Z.min n (Py.len s).
Proof. intros Hn. unfold Py.len. rewrite length_take. lia. Qed.

Lemma len_drop_z (n : Z) (s : string) :
  0 <= n <= Py.len s -> Py.len (Py.drop (Z.to_nat n) s) = Py.len s - n.
Proof. intros Hn. unfold Py.len in *. rewrite length_drop. lia. Qed.

Lemma range_check_inv (lower upper val : Z) :
  match range_check lower upper val with
  | Ok _ => lower <= val <= upper
  | Raise e => e = RunError IFC /\ (val < lower \/ upper < val)
  end.
Proof.
  unfold range_check.
  destruct (Z.ltb_spec val lower); cbn [orb]; [split; [reflexivity | lia] |].
  destruct (Z.ltb_spec upper val); [split; [reflexivity | lia] | lia].
Qed.

Section StoredResults.

Variable numbers : Numbers.
Variable Space : Type.
Variable view : Space -> StringSpace.
Variable store : Space -> string -> result (value * Space).
Hypothesis Law : store_law Space view store.

(** What LEFT$ returns. *)
Lemma left_result (sp sp' : Space) (desc : string) (stop d : value) (n : Z) :
  Facade.to_int numbers stop false = Ok n ->
  Facade.left numbers Space view store sp (Str desc) stop = Ok (d, sp') ->
  0 <= n <= 255
  /\ if n =? 0 then d = null STR /\ sp' = sp
     else exists rd, d = Str rd
          /\ copy (view sp') rd
             = Py.take (Z.to_nat n) (copy (view sp) desc).
Proof.
  intros Hn H. unfold Facade.left, Facade.copy_value in H.
  cbn [bind] in H. rewrite Hn in H. cbn [bind] in H.
  pose proof (range_check_inv 0 255 n) as R.
  destruct (range_check 0 255 n); [| discriminate]. cbn [bind] in H.
  split; [exact R |].
  destruct (n =? 0); [injection H as <- <-; auto |].
  destruct (Law _ _ _ _ H) as (rd & -> & Hc). exists rd. split; [reflexivity |].
  rewrite Hc. unfold Py.slice_to, Py.bound.
  pose proof (len_nonneg (copy (view sp) desc)).
  destruct (Z.ltb_spec (Z.min n (Py.len (copy (view sp) desc))) 0); [lia |].
  apply take_min. lia.
Qed.

(** What RIGHT$ returns. *)
Lemma right_result (sp sp' : Space) (desc : string) (stop d : value) (n : Z) :
  Facade.to_int numbers stop false = Ok n ->
  Facade.right numbers Space view store sp (Str desc) stop = Ok (d, sp') ->
  0 <= n <= 255
  /\ if n =? 0 then d = null STR /\ sp' = sp
     else exists rd, d = Str rd
          /\ copy (view sp') rd
             = Py.drop (Z.to_nat (Py.len (copy (view sp) desc)
                                  - Z.min n (Py.len (copy (view sp) desc))))
                 (copy (view sp) desc).
Proof.
  intros Hn H. unfold Facade.right, Facade.copy_value in H.
  cbn [bind] in H. rewrite Hn in H. cbn [bind] in H.
  pose proof (range_check_inv 0 255 n) as R.
  destruct (range_check 0 255 n); [| discriminate]. cbn [bind] in H.
  split; [exact R |].
  destruct (Z.eqb_spec n 0); [injection H as <- <-; auto |].
  destruct (Law _ _ _ _ H) as (rd & -> & Hc). exists rd. split; [reflexivity |].
  rewrite Hc. unfold Py.slice_from, Py.bound.
  set (s := copy (view sp) desc). pose proof (len_nonneg s).
  destruct (Z.ltb_spec (- Z.min n (Py.len s)) 0).
  - f_equal. lia.
  - assert (E : Py.len s = 0) by lia. rewrite E.
    rewrite Z.min_r by lia. reflexivity.
Qed.

(** What MID$ returns; [nm] is the number of bytes asked for, the length
    of the string when the argument is left out. *)
Lemma mid_result (sp sp' : Space) (desc : string) (start d : value)
    (num : option value) (st nm : Z) :
  Facade.to_int numbers start false = Ok st ->
  match num with
  | None => nm = Py.len (copy (view sp) desc)
  | Some nv => Facade.to_int numbers nv false = Ok nm
  end ->
  Facade.mid numbers Space view store sp (Str desc) start num = Ok (d, sp') ->
  1 <= st <= 255 /\ 0 <= nm <= 255
  /\ if (nm =? 0) || (st >? Py.len (copy (view sp) desc))
     then d = null STR /\ sp' = sp
     else exists rd, d = Str rd
          /\ copy (view sp') rd
             = Py.take (Z.to_nat nm)
                 (Py.drop (Z.to_nat (st - 1)) (copy (view sp) desc)).
Proof.
  intros Hst Hnm H. unfold Facade.mid, Facade.copy_value in H.
  cbn [bind] in H. rewrite Hst in H. cbn [bind] in H.
  set (s := copy (view sp) desc) in *.
  assert (Hn : match num with
               | Some n => Facade.to_int numbers n false
               | None => Ok (Py.len s)
               end = Ok nm)
    by (destruct num; [exact Hnm | now rewrite Hnm]).
  rewrite Hn in H. cbn [bind] in H.
  pose proof (range_check_inv 1 255 st) as R1.
  destruct (range_check 1 255 st); [| discriminate]. cbn [bind] in H.
  pose proof (range_check_inv 0 255 nm) as R2.
  destruct (range_check 0 255 nm); [| discriminate]. cbn [bind] in H.
  split; [exact R1 |]. split; [exact R2 |].
  destruct ((nm =? 0) || (st >? Py.len s)) eqn:C;
    [injection H as <- <-; auto |].
  apply orb_false_iff in C as [C1 C2].
  apply Z.eqb_neq in C1.
  destruct (Z.gtb_spec st (Py.len s)); [discriminate |].
  destruct (Law _ _ _ _ H) as (rd & -> & Hc). exists rd. split; [reflexivity |].
  rewrite Hc. unfold py_slice, Py.bound.
  destruct (Z.ltb_spec (st - 1) 0); [lia |].
  destruct (Z.ltb_spec (Z.min (st - 1 + nm) (Py.len s)) 0); [lia |].
  set (t := Py.drop (Z.to_nat (st - 1)) s).
  assert (Ht : Py.len t = Py.len s - (st - 1))
    by (subst t; apply len_drop_z; lia).
  replace (Z.to_nat (Z.min (st - 1 + nm) (Py.len s)) - Z.to_nat (st - 1))%nat
    with (Z.to_nat (Z.min nm (Py.len t))) by lia.
  apply take_min. lia.
Qed.

End StoredResults.

Section StoredProperties.

Variable numbers : Numbers.
Variable Space : Type.
Variable view : Space -> StringSpace.
Variable store : Space -> string -> result (value * Space).
Hypothesis Law : store_law Space view store.

(** X15.  CHR$ succeeds only for a code from 0 to 255, and ASC of the
    string it returns is that code; ASC of an empty string raises Illegal
    Function Call. *)
Theorem asc_of_chr (sp sp' : Space) (x d : value) (n : Z) :
  Facade.to_int numbers x false = Ok n ->
  Facade.character numbers Space store sp x = Ok (d, sp') ->
  0 <= n <= 255
  /\ Facade.asc (view sp') d = Ok (integer_of n)
  /\ IntegerOps.to_int (to_bytes (integer_of n)) false = n
  /\ (forall strings desc, copy strings desc = "" ->
        Facade.asc strings (Str desc) = Raise (RunError IFC)).
Proof.
  intros Hn H. unfold Facade.character in H. rewrite Hn in H.
  cbn [bind] in H.
  pose proof (range_check_inv 0 255 n) as R.
  destruct (range_check 0 255 n); [| discriminate]. cbn [bind] in H.
  destruct (Law _ _ _ _ H) as (rd & -> & Hc).
  split; [exact R |]. split; [| split].
  - unfold Facade.asc, Values.copy_string, pass_string. cbn [sigil bind].
    rewrite Hc. cbn [char String.eqb throw_if bind].
    change (Py.index (char (Py.chr n)) 0) with (Ok (Py.chr n)).
    cbn [bind]. rewrite ord_chr by lia.
    unfold IntegerOps.from_int, integer_of.
    destruct (Z.leb_spec (-32768) n); [| lia].
    destruct (Z.leb_spec n 32767); [| lia]. reflexivity.
  - apply to_int_signed_encode. lia.
  - intros strings desc E.
    unfold Facade.asc, Values.copy_string, pass_string. cbn [sigil bind].
    rewrite E. reflexivity.
Qed.

(** X16.  SPACE$ succeeds only for a count from 0 to 255 and returns a
    string of that many bytes, all of them spaces. *)
Theorem space_of_count (sp sp' : Space) (x d : value) (n : Z) :
  Facade.to_int numbers x false = Ok n ->
  Facade.space numbers Space store sp x = Ok (d, sp') ->
  0 <= n <= 255
  /\ exists rd, d = Str rd
       /\ Py.len (copy (view sp') rd) = n
       /\ all_chars (Ascii.eqb " ") (copy (view sp') rd) = true.
Proof.
  intros Hn H. unfold Facade.space in H. rewrite Hn in H.
  cbn [bind] in H.
  pose proof (range_check_inv 0 255 n) as R.
  destruct (range_check 0 255 n); [| discriminate]. cbn [bind] in H.
  destruct (Law _ _ _ _ H) as (rd & -> & Hc).
  split; [exact R |]. exists rd. rewrite Hc.
  split; [reflexivity |]. split.
  - rewrite len_mul. lia.
  - now apply all_chars_mul.
Qed.

(** X17.  LEFT$ with a count from 1 to 255 returns the first bytes of the
    string, as many as asked for or the whole string when it is shorter;
    with the count 0 it returns the null string and stores nothing. *)
Theorem left_is_prefix (sp sp' : Space) (desc : string) (stop d : value)
    (n : Z) :
  Facade.to_int numbers stop false = Ok n ->
  Facade.left numbers Space view store sp (Str desc) stop = Ok (d, sp') ->
  0 <= n <= 255
  /\ if n =? 0 then d = null STR /\ sp' = sp
     else exists rd, d = Str rd
          /\ Py.len (copy (view sp') rd)
             = Z.min n (Py.len (copy (view sp) desc))
          /\ copy (view sp') rd ++ Py.drop (Z.to_nat n) (copy (view sp) desc)
             = copy (view sp) desc.
Proof.
  intros Hn H.
  destruct (left_result numbers Space view store Law _ _ _ _ _ _ Hn H)
    as [R Hres].
  split; [exact R |].
  destruct (n =? 0); [exact Hres |].
  destruct Hres as (rd & -> & Hc). exists rd. rewrite Hc.
  split; [reflexivity |]. split.
  - apply len_take_z. lia.
  - apply take_drop.
Qed.

(** X18.  RIGHT$ with a count from 1 to 255 returns the last bytes of the
    string, as many as asked for or the whole string when it is shorter;
    with the count 0 it returns the null string and stores nothing. *)
Theorem right_is_suffix (sp sp' : Space) (desc : string) (stop d : value)
    (n : Z) :
  Facade.to_int numbers stop false = Ok n ->
  Facade.right numbers Space view store sp (Str desc) stop = Ok (d, sp') ->
  0 <= n <= 255
  /\ if n =? 0 then d = null STR /\ sp' = sp
     else exists rd front, d = Str rd
          /\ Py.len (copy (view sp') rd)
             = Z.min n (Py.len (copy (view sp) desc))
          /\ front ++ copy (view sp') rd = copy (view sp) desc.
Proof.
  intros Hn H.
  destruct (right_result numbers Space view store Law _ _ _ _ _ _ Hn H)
    as [R Hres].
  split; [exact R |].
  destruct (n =? 0); [exact Hres |].
  destruct Hres as (rd & -> & Hc).
  set (s := copy (view sp) desc) in *. pose proof (len_nonneg s).
  exists rd, (Py.take (Z.to_nat (Py.len s - Z.min n (Py.len s))) s).
  rewrite Hc. split; [reflexivity |]. split.
  - rewrite len_drop_z by lia. lia.
  - apply take_drop.
Qed.

(** X19.  MID$ succeeds only for a start from 1 to 255 and a count from 0
    to 255.  It returns the bytes of the string from the start position
    on, as many as asked for or as are left; with the count 0 or a start
    beyond the end it returns the null string and stores nothing. *)
Theorem mid_is_slice (sp sp' : Space) (desc : string) (start d : value)
    (num : option value) (st nm : Z) :
  Facade.to_int numbers start false = Ok st ->
  match num with
  | None => nm = Py.len (copy (view sp) desc)
  | Some nv => Facade.to_int numbers nv false = Ok nm
  end ->
  Facade.mid numbers Space view store sp (Str desc) start num = Ok (d, sp') ->
  1 <= st <= 255 /\ 0 <= nm <= 255
  /\ if (nm =? 0) || (st >? Py.len (copy (view sp) desc))
     then d = null STR /\ sp' = sp
     else exists rd front back, d = Str rd
          /\ Py.len front = st - 1
          /\ Py.len (copy (view sp') rd)
             = Z.min nm (Py.len (copy (view sp) desc) - (st - 1))
          /\ front ++ copy (view sp') rd ++ back = copy (view sp) desc.
Proof.
  intros Hst Hnm H.
  destruct (mid_result numbers Space view store Law _ _ _ _ _ _ _ _ Hst Hnm H)
    as (R1 & R2 & Hres).
  split; [exact R1 |]. split; [exact R2 |].
  destruct ((nm =? 0) || (st >? Py.len (copy (view sp) desc))) eqn:C;
    [exact Hres |].
  apply orb_false_iff in C as [_ C].
  destruct (Z.gtb_spec st (Py.len (copy (view sp) desc))); [discriminate |].
  destruct Hres as (rd & -> & Hc).
  set (s := copy (view sp) desc) in *.
  exists rd, (Py.take (Z.to_nat (st - 1)) s),
    (Py.drop (Z.to_nat nm) (Py.drop (Z.to_nat (st - 1)) s)).
  rewrite Hc. split; [reflexivity |]. split; [| split].
  - rewrite len_take_z by lia. lia.
  - rewrite len_take_z, len_drop_z by lia. reflexivity.
  - now rewrite take_drop, take_drop.
Qed.

(** X20.  LEFT$ of the first [n] bytes and MID$ from position [n + 1]
    on, without a count, together give the string back. *)
Theorem left_then_mid (sp sp1 sp2 : Space) (desc : string)
    (stop start d1 d2 : value) (n : Z) :
  1 <= n < Py.len (copy (view sp) desc) ->
  Facade.to_int numbers stop false = Ok n ->
  Facade.to_int numbers start false = Ok (n + 1) ->
  Facade.left numbers Space view store sp (Str desc) stop = Ok (d1, sp1) ->
  Facade.mid numbers Space view store sp (Str desc) start None
    = Ok (d2, sp2) ->
  exists r1 r2,
    d1 = Str r1 /\ d2 = Str r2
    /\ copy (view sp1) r1 ++ copy (view sp2) r2 = copy (view sp) desc.
Proof.
  intros Hn Hstop Hstart Hl Hm.
  destruct (left_result numbers Space view store Law _ _ _ _ _ _ Hstop Hl)
    as [_ Hres1].
  destruct (mid_result numbers Space view store Law _ _ _ _ _ None _ _
              Hstart eq_refl Hm) as (_ & R & Hres2).
  set (s := copy (view sp) desc) in *.
  destruct (Z.eqb_spec n 0); [lia |].
  destruct (Z.eqb_spec (Py.len s) 0); [lia |].
  destruct (Z.gtb_spec (n + 1) (Py.len s)); [lia |].
  cbn [orb] in Hres2.
  destruct Hres1 as (r1 & -> & C1), Hres2 as (r2 & -> & C2).
  exists r1, r2. split; [reflexivity |]. split; [reflexivity |].
  rewrite C1, C2. replace (n + 1 - 1) with n by lia.
  rewrite (take_beyond (Z.to_nat (Py.len s))).
  - apply take_drop.
  - rewrite length_drop. unfold Py.len. lia.
Qed.

(** X21.  The concatenation of two strings is the bytes of the first
    followed by the bytes of the second; with an operand that is not a
    string it raises Type Mismatch. *)
Theorem concat_appends (sp : Space) (l r : value) :
  match l, r with
  | Str dl, Str dr =>
      forall d sp',
        Facade.concat Space view store sp l r = Ok (d, sp') ->
        exists rd, d = Str rd
          /\ copy (view sp') rd = copy (view sp) dl ++ copy (view sp) dr
  | _, _ =>
      Facade.concat Space view store sp l r = Raise (RunError TYPE_MISMATCH)
  end.
Proof.
  destruct l as [bl | fl | dl], r as [br | fr | dr];
    try (destruct fl as [[] bl]); try (destruct fr as [[] br]);
    try reflexivity.
  intros d sp' H. unfold Facade.concat, Values.copy_string, pass_string in H.
  cbn [sigil bind] in H.
  destruct (Law _ _ _ _ H) as (rd & -> & Hc). eauto.
Qed.

(** X22.  With an argument below 0 or above 255, CHR$, SPACE$, LEFT$,
    RIGHT$ and MID$ (as its start) raise Illegal Function Call. *)
Theorem string_functions_range (sp : Space) (desc : string) (x : value)
    (n : Z) :
  Facade.to_int numbers x false = Ok n ->
  n < 0 \/ 255 < n ->
  Facade.character numbers Space store sp x = Raise (RunError IFC)
  /\ Facade.space numbers Space store sp x = Raise (RunError IFC)
  /\ Facade.left numbers Space view store sp (Str desc) x
     = Raise (RunError IFC)
  /\ Facade.right numbers Space view store sp (Str desc) x
     = Raise (RunError IFC)
  /\ Facade.mid numbers Space view store sp (Str desc) x None
     = Raise (RunError IFC).
Proof.
  intros Hn Hout.
  assert (R0 : range_check 0 255 n = Raise (RunError IFC)).
  { pose proof (range_check_inv 0 255 n) as R.
    destruct (range_check 0 255 n); [lia | destruct R as [-> _]; reflexivity]. }
  assert (R1 : range_check 1 255 n = Raise (RunError IFC)).
  { pose proof (range_check_inv 1 255 n) as R.
    destruct (range_check 1 255 n); [lia | destruct R as [-> _]; reflexivity]. }
  unfold Facade.character, Facade.space, Facade.left, Facade.right,
    Facade.mid, Facade.copy_value.
  cbn [bind]. rewrite Hn. cbn [bind]. rewrite R0, R1. repeat split.
Qed.

End StoredProperties.

(** ** The stored strings on the memory string space *)

(** ASC(CHR$(65)) *)
Lemma asc_of_chr_witness :
  Facade.character Mbf.numbers string memory_store "" (integer_of 65)
    = Ok (Str (Mbf.descriptor 1 0), "A")
  /\ Facade.asc (Mbf.string_space "A") (Str (Mbf.descriptor 1 0))
     = Ok (integer_of 65).
Proof.
  split; [reflexivity |].
  destruct (asc_of_chr Mbf.numbers string Mbf.string_space memory_store
              memory_store_law "" "A" (integer_of 65)
              (Str (Mbf.descriptor 1 0)) 65 eq_refl eq_refl) as (_ & A & _).
  exact A.
Defined.

(** SPACE$(3) *)
Lemma space_of_count_witness :
  exists rd,
    Str (Mbf.descriptor 3 0) = Str rd
    /\ Py.len (copy (Mbf.string_space "   ") rd) = 3
    /\ all_chars (Ascii.eqb " ") (copy (Mbf.string_space "   ") rd) = true.
Proof.
  destruct (space_of_count Mbf.numbers string Mbf.string_space memory_store
              memory_store_law "" "   " (integer_of 3)
              (Str (Mbf.descriptor 3 0)) 3 eq_refl eq_refl) as (_ & S).
  exact S.
Defined.

(** LEFT$("HELLO", 2) *)
Lemma left_is_prefix_witness :
  Facade.left Mbf.numbers string Mbf.string_space memory_store "HELLO"
    (Str (Mbf.descriptor 5 0)) (integer_of 2)
    = Ok (Str (Mbf.descriptor 2 5), "HELLOHE")
  /\ copy (Mbf.string_space "HELLOHE") (Mbf.descriptor 2 5) = "HE"
  /\ 0 <= 2 <= 255.
Proof.
  split; [reflexivity | split; [reflexivity |]].
  destruct (left_is_prefix Mbf.numbers string Mbf.string_space memory_store
              memory_store_law "HELLO" "HELLOHE" (Mbf.descriptor 5 0)
              (integer_of 2) (Str (Mbf.descriptor 2 5)) 2 eq_refl eq_refl)
    as (R & _).
  exact R.
Defined.

(** RIGHT$("HELLO", 2) *)
Lemma right_is_suffix_witness :
  Facade.right Mbf.numbers string Mbf.string_space memory_store "HELLO"
    (Str (Mbf.descriptor 5 0)) (integer_of 2)
    = Ok (Str (Mbf.descriptor 2 5), "HELLOLO")
  /\ copy (Mbf.string_space "HELLOLO") (Mbf.descriptor 2 5) = "LO"
  /\ 0 <= 2 <= 255.
Proof.
  split; [reflexivity | split; [reflexivity |]].
  destruct (right_is_suffix Mbf.numbers string Mbf.string_space memory_store
              memory_store_law "HELLO" "HELLOLO" (Mbf.descriptor 5 0)
              (integer_of 2) (Str (Mbf.descriptor 2 5)) 2 eq_refl eq_refl)
    as (R & _).
  exact R.
Defined.

(** MID$("HELLO", 2, 3) *)
Lemma mid_is_slice_witness :
  Facade.mid Mbf.numbers string Mbf.string_space memory_store "HELLO"
    (Str (Mbf.descriptor 5 0)) (integer_of 2) (Some (integer_of 3))
    = Ok (Str (Mbf.descriptor 3 5), "HELLOELL")
  /\ copy (Mbf.string_space "HELLOELL") (Mbf.descriptor 3 5) = "ELL"
  /\ 1 <= 2 <= 255.
Proof.
  split; [reflexivity | split; [reflexivity |]].
  destruct (mid_is_slice Mbf.numbers string Mbf.string_space memory_store
              memory_store_law "HELLO" "HELLOELL" (Mbf.descriptor 5 0)
              (integer_of 2) (Str (Mbf.descriptor 3 5))
              (Some (integer_of 3)) 2 3 eq_refl eq_refl eq_refl)
    as (R & _).
  exact R.
Defined.

(** LEFT$("HELLO", 2) and MID$("HELLO", 3) *)
Lemma left_then_mid_witness :
  exists r1 r2,
    Str (Mbf.descriptor 2 5) = Str r1 /\ Str (Mbf.descriptor 3 5) = Str r2
    /\ copy (Mbf.string_space "HELLOHE") r1
       ++ copy (Mbf.string_space "HELLOLLO") r2
       = copy (Mbf.string_space "HELLO") (Mbf.descriptor 5 0).
Proof.
  apply (left_then_mid Mbf.numbers string Mbf.string_space memory_store
           memory_store_law "HELLO" "HELLOHE" "HELLOLLO" (Mbf.descriptor 5 0)
           (integer_of 2) (integer_of 3) (Str (Mbf.descriptor 2 5))
           (Str (Mbf.descriptor 3 5)) 2);
    try reflexivity.
  vm_compute. split; congruence.
Defined.

(** "AB" + "CD" *)
Lemma concat_appends_witness :
  exists rd,
    Str (Mbf.descriptor 4 4) = Str rd
    /\ copy (Mbf.string_space "ABCDABCD") rd
       = copy (Mbf.string_space "ABCD") (Mbf.descriptor 2 0)
         ++ copy (Mbf.string_space "ABCD") (Mbf.descriptor 2 2).
Proof.
  apply (concat_appends string Mbf.string_space memory_store memory_store_law
           "ABCD" (Str (Mbf.descriptor 2 0)) (Str (Mbf.descriptor 2 2))
           (Str (Mbf.descriptor 4 4)) "ABCDABCD").
  reflexivity.
Defined.

(** CHR$(256) *)
Lemma string_functions_range_witness :
  Facade.character Mbf.numbers string memory_store "" (integer_of 256)
    = Raise (RunError IFC)
  /\ Facade.left Mbf.numbers string Mbf.string_space memory_store "HELLO"
       (Str (Mbf.descriptor 5 0)) (integer_of 256) = Raise (RunError IFC).
Proof.
  destruct (string_functions_range Mbf.numbers string Mbf.string_space
              memory_store "HELLO" (Mbf.descriptor 5 0) (integer_of 256) 256
              eq_refl (or_intror eq_refl)) as (C & _ & L & _).
  split; [| exact L].
  destruct (string_functions_range Mbf.numbers string Mbf.string_space
              memory_store "" (Mbf.descriptor 5 0) (integer_of 256) 256
              eq_refl (or_intror eq_refl)) as (C' & _).
  exact C'.
Defined.
